(** * ai-agent-project: the research flow of [multi_tool_agent]

    A shallow embedding of [multi_tool_agent/base_researcher.py] (the class
    [BaseResearchFlow]) and of the function [get_biographies] of
    [multi_tool_agent/agent.py], with the properties of the specification
    stated and proved about it.

    Python text ([str]) is a sequence of Unicode code points, the session
    state ([session.state]) is a dictionary from field names to text, a Python
    call either returns a value or raises, and the logger, the standard output
    and the session are threaded through the calls as an explicit world. *)

From Stdlib Require Import NArith Ascii String Lia.
From stdpp Require Import base option list strings gmap.

Local Open Scope N_scope.

(** ** Python text *)

Module PyStr.

(** A [str] is a sequence of code points. *)
Definition pystr : Type := list N.

(** A literal of the source, written as a Rocq string of ASCII bytes. *)
Definition py (s : string) : pystr :=
  List.map N_of_ascii (list_ascii_of_string s).

(** [bool(s)]: a text is true when it is not empty. *)
Definition truthy (s : pystr) : bool :=
  match s with
  | [] => false
  | _ :: _ => true
  end.

(** [bool(o)] for an optional text: [None] and the empty text are false. *)
Definition truthy_opt (o : option pystr) : bool :=
  match o with
  | None => false
  | Some s => truthy s
  end.

(** [str.isspace] on one code point: the code points CPython's
    [_PyUnicode_IsWhitespace] accepts. *)
Definition isspace (c : N) : bool :=
  ((9 <=? c) && (c <=? 13)) || ((28 <=? c) && (c <=? 32))
  || (c =? 133) || (c =? 160) || (c =? 5760)
  || ((8192 <=? c) && (c <=? 8202))
  || (c =? 8232) || (c =? 8233) || (c =? 8239) || (c =? 8287)
  || (c =? 12288).

(** [s.lstrip()] *)
Fixpoint lstrip (s : pystr) : pystr :=
  match s with
  | [] => []
  | c :: t => if isspace c then lstrip t else s
  end.

(** [s.rstrip()] *)
Fixpoint rstrip (s : pystr) : pystr :=
  match s with
  | [] => []
  | c :: t =>
      match rstrip t with
      | [] => if isspace c then [] else [c]
      | r => c :: r
      end
  end.

(** [s.strip()] *)
Definition strip (s : pystr) : pystr := rstrip (lstrip s).

(** [s.startswith(p)] *)
Fixpoint startswith (s p : pystr) {struct p} : bool :=
  match p, s with
  | [], _ => true
  | _ :: _, [] => false
  | a :: p', b :: s' => (a =? b) && startswith s' p'
  end.

(** [p in s]: [p] occurs in [s] as a contiguous run. *)
Fixpoint contains (p s : pystr) : bool :=
  startswith s p ||
  match s with
  | [] => false
  | _ :: t => contains p t
  end.

(** [s.replace(old, new)] scans from the left and replaces every
    occurrence that does not overlap an earlier one.  [skip] counts the code
    points of a matched occurrence still to be passed over.  With an empty
    [old], [new] is put before every code point and at the end. *)
Fixpoint replace_from (old new : pystr) (skip : nat) (s : pystr) : pystr :=
  match s with
  | [] => match old with [] => new | _ :: _ => [] end
  | c :: t =>
      match skip with
      | S k => replace_from old new k t
      | O =>
          match old with
          | [] => new ++ c :: replace_from old new O t
          | _ :: _ =>
              if startswith s old
              then new ++ replace_from old new (Nat.pred (length old)) t
              else c :: replace_from old new O t
          end
      end
  end.

Definition replace (s old new : pystr) : pystr := replace_from old new O s.

(** [s.split(sep)] for a non-empty [sep]: the pieces between the
    occurrences of [sep], never an empty list.  [cur] is the piece being
    read, in reverse. *)
Fixpoint split_from (sep : pystr) (skip : nat) (cur : pystr) (s : pystr)
  : list pystr :=
  match s with
  | [] => [rev cur]
  | c :: t =>
      match skip with
      | S k => split_from sep k cur t
      | O =>
          if startswith s sep
          then rev cur :: split_from sep (Nat.pred (length sep)) [] t
          else split_from sep O (c :: cur) t
      end
  end.

Definition split (s sep : pystr) : list pystr := split_from sep O [] s.

(** [s.count(c)] for a single code point [c]. *)
Fixpoint count (c : N) (s : pystr) : nat :=
  match s with
  | [] => O
  | d :: t => if c =? d then S (count c t) else count c t
  end.

(** [str.lower] on an ASCII code point. *)
Definition ascii_lower (c : N) : N :=
  if (65 <=? c) && (c <=? 90) then c + 32 else c.

End PyStr.
Import PyStr.

(** ** Python calls: values, exceptions, effects *)

(** A raised exception: the name of its class, whether the class derives from
    [Exception] (the classes that derive from [BaseException] only, such as
    [KeyboardInterrupt], [SystemExit], [GeneratorExit] and
    [asyncio.CancelledError], do not), and [str(e)]. *)
Record exn : Type := mk_exn {
  exn_type : string;
  derives_Exception : bool;
  exn_str : pystr
}.

Definition AttributeError (msg : pystr) : exn := mk_exn "AttributeError" true msg.
Definition IndexError (msg : pystr) : exn := mk_exn "IndexError" true msg.
Definition KeyboardInterrupt : exn := mk_exn "KeyboardInterrupt" false [].
Definition CancelledError : exn := mk_exn "CancelledError" false [].

(** The outcome of a call. *)
Inductive pyresult (A : Type) : Type :=
| Returns (a : A)
| Raises (e : exn).
Arguments Returns {A} a.
Arguments Raises {A} e.

(** A call that reads and writes a state [S] and returns or raises. *)
Definition M (S A : Type) : Type := S -> pyresult A * S.

Definition ret {S A} (a : A) : M S A := fun s => (Returns a, s).

Definition raise {S A} (e : exn) : M S A := fun s => (Raises e, s).

Definition bind {S A B} (m : M S A) (k : A -> M S B) : M S B :=
  fun s =>
    match m s with
    | (Returns a, s') => k a s'
    | (Raises e, s') => (Raises e, s')
    end.

Notation "x <- m ;; k" := (bind m (fun x => k))
  (at level 100, m at next level, right associativity).
Notation "m ;; k" := (bind m (fun _ => k))
  (at level 100, right associativity).

(** [try: body / except Exception as e: handler e]: only an exception whose
    class derives from [Exception] is handled, any other goes on to the
    caller. *)
Definition try_except_Exception {S A} (body : M S A) (handler : exn -> M S A)
  : M S A :=
  fun s =>
    match body s with
    | (Returns a, s') => (Returns a, s')
    | (Raises e, s') =>
        if derives_Exception e then handler e s' else (Raises e, s')
    end.

(** *** The logger and the standard output *)

Inductive Level : Type := INFO | WARNING | ERROR.

Record Env : Type := mk_Env {
  log : list (Level * pystr);     (* records of [logger], oldest first *)
  stdout : list pystr             (* lines of [print], oldest first *)
}.

Definition logger (lvl : Level) (msg : pystr) : M Env unit :=
  fun e => (Returns tt, mk_Env (log e ++ [(lvl, msg)]) (stdout e)).

(** [print(msg)].  The standard output is taken to encode every text it is
    given, as a UTF-8 stream does for a text without surrogate code points
    (see [encodable] below); on a text it cannot encode the real [print]
    raises [UnicodeEncodeError], which is not modelled. *)
Definition print (msg : pystr) : M Env unit :=
  fun e => (Returns tt, mk_Env (log e) (stdout e ++ [msg])).

(** ** The search tool and the agents of the framework *)

(** The keyword arguments [TavilySearchResults] is built with. *)
Record TavilySearchResults : Type := mk_Tavily {
  max_results : N;
  search_depth : pystr;
  include_answer : bool;
  include_raw_content : bool;
  include_images : bool
}.

(** [LangchainTool(tool=...)] wraps the search tool. *)
Record LangchainTool : Type := mk_LangchainTool { tool : TavilySearchResults }.

(** The agents of [google.adk.agents] that the repository builds: an LLM
    agent, and the composite that runs its sub-agents one after the other. *)
#[warnings="-register-all"]
Inductive BaseAgent : Type :=
| Agent (name : string) (model : pystr) (instruction : option pystr)
        (tools : list LangchainTool) (output_key : string)
| SequentialAgent (name : string) (sub_agents : list BaseAgent).

Definition agent_name (a : BaseAgent) : string :=
  match a with
  | Agent n _ _ _ _ => n
  | SequentialAgent n _ => n
  end.

(** One run of an LLM agent: the agent, the session state it read and the
    text the model gave. *)
Record Invocation : Type := mk_Invocation {
  invoked : BaseAgent;
  state_read : gmap string pystr;
  reply : pystr
}.

(** Modelled from the spec: the run of an agent, which is the framework's
    ([Agent] and [SequentialAgent] of [google.adk.agents]) and is missing
    from the repository.  By the specification an LLM agent invokes its model
    once, on the session state as it is then, and writes the reply to the
    session state under its output key; a sequence runs its stages strictly
    in order, each one after the output of the one before is written, and
    never goes back.  [model_reply a st] is the reply of the model for the
    agent [a] on the state [st].  The result is the list of the runs of LLM
    agents, in order, and the state at the end. *)
Fixpoint run_agent (model_reply : BaseAgent -> gmap string pystr -> pystr)
    (a : BaseAgent) (st : gmap string pystr)
  : list Invocation * gmap string pystr :=
  match a with
  | Agent _ _ _ _ output_key =>
      let t := model_reply a st in
      ([mk_Invocation a st t], <[output_key := t]> st)
  | SequentialAgent _ sub_agents =>
      (fix run_all (l : list BaseAgent) (st : gmap string pystr)
         : list Invocation * gmap string pystr :=
         match l with
         | [] => ([], st)
         | b :: l' =>
             let '(first, st1) := run_agent model_reply b st in
             let '(others, st2) := run_all l' st1 in
             (first ++ others, st2)
         end) sub_agents st
  end.

(** ** Events, sessions, the runner *)

Record Part : Type := mk_Part { text : option pystr }.

Record Content : Type := mk_Content {
  role : option pystr;
  parts : option (list Part)
}.

Record Event : Type := mk_Event {
  is_final_response : bool;
  content : option Content
}.

(** A session of the framework; its [state] maps field names to text. *)
Record Session : Type := mk_Session {
  session_app_name : option pystr;
  session_user_id : option pystr;
  session_id_of : pystr;
  state : gmap string pystr
}.

(** What [runner.run_async(...)] returns: a finite asynchronous generator.
    Asked for its next event it first commits the state changes of the agents
    that ran since the last event ([commit], applied to the state of the
    session), and then yields an event, ends, or raises. *)
Inductive AsyncGenerator : Type :=
| Yield (commit : gmap string pystr -> gmap string pystr) (event : Event)
        (rest : AsyncGenerator)
| StopAsyncIteration (commit : gmap string pystr -> gmap string pystr)
| Throw (commit : gmap string pystr -> gmap string pystr) (e : exn).

Record Runner : Type := mk_Runner {
  runner_agent : BaseAgent;
  runner_app_name : option pystr;
  run_async : option pystr -> pystr -> Content -> AsyncGenerator
}.

(** ** The class [BaseResearchFlow] *)

Record BaseResearchFlow : Type := mk_BaseResearchFlow {
  model_name : pystr;
  session : option Session;
  runner : option Runner;
  session_id : pystr;
  app_name : option pystr;
  user_id : option pystr;
  researcher_instructions : option pystr;
  answer_instructions : option pystr;
  reviewer_instructions : option pystr;
  refiner_instructions : option pystr;
  tavily_tool : LangchainTool;
  research_agent : BaseAgent;
  answer_agent : BaseAgent;
  reviewer_agent : BaseAgent;
  refiner_agent : BaseAgent;
  base_workflow : BaseAgent;
  workflow_agent : BaseAgent
}.

(** *** Construction *)

Section Construction.

(** The constructors of the two libraries are not part of the repository:
    what is known of them is that they return the object or raise.
    [tavily_init kwargs] and [langchain_init t] give the exception the
    constructor raises on these arguments, if it raises. *)
Variable tavily_init : TavilySearchResults -> option exn.
Variable langchain_init : TavilySearchResults -> option exn.

(** The constructors of the agents validate their arguments and raise on
    those they refuse (an instruction that is [None], for one):
    [agent_init a] is the exception the constructor raises when it is asked
    to build [a], if it raises. *)
Variable agent_init : BaseAgent -> option exn.

Definition new_Agent (name : string) (model : pystr)
    (instruction : option pystr) (tools : list LangchainTool)
    (output_key : string) : M Env BaseAgent :=
  match agent_init (Agent name model instruction tools output_key) with
  | Some e => raise e
  | None => ret (Agent name model instruction tools output_key)
  end.

Definition new_SequentialAgent (name : string) (sub_agents : list BaseAgent)
  : M Env BaseAgent :=
  match agent_init (SequentialAgent name sub_agents) with
  | Some e => raise e
  | None => ret (SequentialAgent name sub_agents)
  end.

Definition new_TavilySearchResults (kwargs : TavilySearchResults)
  : M Env TavilySearchResults :=
  match tavily_init kwargs with
  | Some e => raise e
  | None => ret kwargs
  end.

Definition new_LangchainTool (t : TavilySearchResults) : M Env LangchainTool :=
  match langchain_init t with
  | Some e => raise e
  | None => ret (mk_LangchainTool t)
  end.

(** [_setup_tools]: the value it leaves in [self.tavily_tool]. *)
Definition _setup_tools : M Env LangchainTool :=
  try_except_Exception
    (tavily_search <- new_TavilySearchResults
                        {| max_results := 10;
                           search_depth := py "advanced";
                           include_answer := false;
                           include_raw_content := true;
                           include_images := false |} ;;
     new_LangchainTool tavily_search)
    (fun e =>
       logger ERROR (py "Failed to initialize Tavily search tool: " ++ exn_str e) ;;
       raise e).

(** The six agents [_setup_agents] leaves in [self]. *)
Record Agents : Type := mk_Agents {
  agents_research : BaseAgent;
  agents_answer : BaseAgent;
  agents_reviewer : BaseAgent;
  agents_refiner : BaseAgent;
  agents_base_workflow : BaseAgent;
  agents_workflow : BaseAgent
}.

Definition _setup_agents (model_name : pystr)
    (researcher_instructions answer_instructions
     reviewer_instructions refiner_instructions : option pystr)
    (tavily_tool : LangchainTool) : M Env Agents :=
  research_agent <-
    new_Agent "ResearchAgent" model_name researcher_instructions
              [tavily_tool] "research_data" ;;
  answer_agent <-
    new_Agent "AnswerAgent" model_name answer_instructions [] "answer_summary" ;;
  reviewer_agent <-
    new_Agent "ReviewerAgent" model_name reviewer_instructions []
              "review_result" ;;
  refiner_agent <-
    new_Agent "RefinerAgent" model_name refiner_instructions []
              "refinement_action" ;;
  base_workflow <-
    new_SequentialAgent "BaseResearchWorkflow" [research_agent; answer_agent] ;;
  workflow_agent <-
    new_SequentialAgent "IterativeResearchWorkflow"
                        [base_workflow; reviewer_agent] ;;
  ret (mk_Agents research_agent answer_agent reviewer_agent refiner_agent
                 base_workflow workflow_agent).

(** [BaseResearchFlow(...)]: [uuid] is the value of [str(uuid.uuid4())]. *)
Definition __init__ (uuid : pystr) (model_name : pystr)
    (researcher_instructions reviewer_instructions
     refiner_instructions answer_instructions : option pystr)
    (app_name user_id : option pystr) : M Env BaseResearchFlow :=
  tavily_tool <- _setup_tools ;;
  a <- _setup_agents model_name researcher_instructions
         answer_instructions reviewer_instructions
         refiner_instructions tavily_tool ;;
  ret {| model_name := model_name;
         session := None;
         runner := None;
         session_id := uuid;
         app_name := app_name;
         user_id := user_id;
         researcher_instructions := researcher_instructions;
         answer_instructions := answer_instructions;
         reviewer_instructions := reviewer_instructions;
         refiner_instructions := refiner_instructions;
         tavily_tool := tavily_tool;
         research_agent := agents_research a;
         answer_agent := agents_answer a;
         reviewer_agent := agents_reviewer a;
         refiner_agent := agents_refiner a;
         base_workflow := agents_base_workflow a;
         workflow_agent := agents_workflow a |}.

End Construction.

(** *** The running process

    A method call reads and writes the flow object [self], the logger and the
    standard output ([env]).  Two more fields record what the call did to the
    runner: the calls of [run_async] and the events taken from its generator,
    oldest first. *)

Record World : Type := mk_World {
  self : BaseResearchFlow;
  env : Env;
  run_async_calls : list (option pystr * pystr * Content);
  observed : list Event
}.

Definition in_env {A} (m : M Env A) : M World A :=
  fun w =>
    let '(r, e) := m (env w) in
    (r, mk_World (self w) e (run_async_calls w) (observed w)).

Definition with_session (f : BaseResearchFlow) (s : option Session)
  : BaseResearchFlow :=
  {| model_name := model_name f;
     session := s;
     runner := runner f;
     session_id := session_id f;
     app_name := app_name f;
     user_id := user_id f;
     researcher_instructions := researcher_instructions f;
     answer_instructions := answer_instructions f;
     reviewer_instructions := reviewer_instructions f;
     refiner_instructions := refiner_instructions f;
     tavily_tool := tavily_tool f;
     research_agent := research_agent f;
     answer_agent := answer_agent f;
     reviewer_agent := reviewer_agent f;
     refiner_agent := refiner_agent f;
     base_workflow := base_workflow f;
     workflow_agent := workflow_agent f |}.

Definition with_state (s : Session) (st : gmap string pystr) : Session :=
  mk_Session (session_app_name s) (session_user_id s) (session_id_of s) st.

(** The state changes an agent commits land in the state of the session the
    flow holds. *)
Definition commit_state (c : gmap string pystr -> gmap string pystr)
  : M World unit :=
  fun w =>
    match session (self w) with
    | Some s =>
        (Returns tt,
         mk_World (with_session (self w) (Some (with_state s (c (state s)))))
                  (env w) (run_async_calls w) (observed w))
    | None => (Returns tt, w)
    end.

(** [self.session.state[key] = v] *)
Definition session_state_setitem (key : string) (v : pystr) : M World unit :=
  fun w =>
    match session (self w) with
    | Some s =>
        (Returns tt,
         mk_World (with_session (self w)
                     (Some (with_state s (<[key := v]> (state s)))))
                  (env w) (run_async_calls w) (observed w))
    | None =>
        (Raises (AttributeError (py "'NoneType' object has no attribute 'state'")),
         w)
    end.

(** [self.session.state.get(key)] *)
Definition session_state_get (key : string) : M World (option pystr) :=
  fun w =>
    match session (self w) with
    | Some s => (Returns (state s !! key), w)
    | None =>
        (Raises (AttributeError (py "'NoneType' object has no attribute 'state'")),
         w)
    end.

(** [self.runner.run_async(user_id=self.user_id, session_id=self.session_id,
    new_message=content)] *)
Definition runner_run_async (new_message : Content) : M World AsyncGenerator :=
  fun w =>
    match runner (self w) with
    | Some r =>
        let uid := user_id (self w) in
        let sid := session_id (self w) in
        (Returns (run_async r uid sid new_message),
         mk_World (self w) (env w)
                  (run_async_calls w ++ [(uid, sid, new_message)])
                  (observed w))
    | None =>
        (Raises (AttributeError
                   (py "'NoneType' object has no attribute 'run_async'")),
         w)
    end.

Definition observe (event : Event) : M World unit :=
  fun w =>
    (Returns tt,
     mk_World (self w) (env w) (run_async_calls w) (observed w ++ [event])).

(** The loop [async for event in ...] of [research_person]; it returns the
    value [final_response] has when the loop is left. *)
Fixpoint async_for (g : AsyncGenerator) : M World (option pystr) :=
  match g with
  | StopAsyncIteration c => commit_state c ;; ret None
  | Throw c e => commit_state c ;; raise e
  | Yield c event rest =>
      commit_state c ;;
      observe event ;;
      if is_final_response event then
        match content event with
        | Some ct =>
            match parts ct with
            | Some (p :: _) =>
                let final_response := text p in
                in_env (logger INFO
                          (py "Iterative research workflow completed successfully")) ;;
                ret final_response
            | Some [] | None => async_for rest
            end
        | None => async_for rest
        end
      else async_for rest
  end.

(** The message [research_person] sends to the runner. *)
Definition user_message (person_name : pystr) : Content :=
  {| role := Some (py "user");
     parts := Some [ {| text := Some
       (py "Research and create an early life biography section summary for "
        ++ person_name) |} ] |}.

(** The [try] block of [research_person]. *)
Definition research_person_try (person_name : pystr) : M World (option pystr) :=
  session_state_setitem "person_name" (strip person_name) ;;
  in_env (logger INFO
            (py "Starting iterative research workflow for: " ++ person_name)) ;;
  let content := user_message person_name in
  in_env (print
            ([128269] ++
             py " Starting comprehensive research and review workflow for "
             ++ person_name ++ py "...")) ;;
  events <- runner_run_async content ;;
  final_response <- async_for events ;;
  answer_summary <- session_state_get "answer_summary" ;;
  if truthy_opt answer_summary then ret answer_summary
  else if truthy_opt final_response then ret final_response
  else
    in_env (logger WARNING
              (py "No final summary available after workflow completion")) ;;
    ret None.

(** Its [except Exception as e] block. *)
Definition research_person_except (e : exn) : M World (option pystr) :=
  in_env (logger ERROR
            (py "Error during iterative research workflow: " ++ exn_str e)) ;;
  ret None.

Definition research_person (person_name : pystr) : M World (option pystr) :=
  if negb (truthy person_name) || negb (truthy (strip person_name)) then
    in_env (logger ERROR (py "Person name cannot be empty")) ;;
    ret None
  else
    try_except_Exception (research_person_try person_name)
                         research_person_except.

(** *** The accessors *)

Definition get_research_data (f : BaseResearchFlow) : pyresult (option pystr) :=
  Returns (match session f with
           | Some s => state s !! "research_data"
           | None => None
           end).

Definition get_review_feedback (f : BaseResearchFlow) : pyresult (option pystr) :=
  let review_result :=
    match session f with
    | Some s => state s !! "review_result"
    | None => None
    end in
  match review_result with
  | Some r =>
      if truthy r then
        if contains (py "APPROVED:") r then
          Returns (Some (strip (replace r (py "APPROVED:") [])))
        else if contains (py "NEEDS_IMPROVEMENT:") r then
          match split r (py "|") with
          | p0 :: _ =>
              Returns (Some (strip (replace p0 (py "NEEDS_IMPROVEMENT:") [])))
          | [] => Raises (IndexError (py "list index out of range"))
          end
        else Returns None
      else Returns None
  | None => Returns None
  end.

Definition get_review_status (f : BaseResearchFlow) : pyresult (option pystr) :=
  let review_result :=
    match session f with
    | Some s => state s !! "review_result"
    | None => None
    end in
  match review_result with
  | Some r =>
      if truthy r then
        if startswith r (py "APPROVED:") then Returns (Some (py "APPROVED"))
        else if startswith r (py "NEEDS_IMPROVEMENT:") then
          Returns (Some (py "NEEDS_IMPROVEMENT"))
        else Returns None
      else Returns None
  | None => Returns None
  end.

(** *** Asynchronous initialisation *)

Definition with_runner (f : BaseResearchFlow) (r : option Runner)
  : BaseResearchFlow :=
  {| model_name := model_name f;
     session := session f;
     runner := r;
     session_id := session_id f;
     app_name := app_name f;
     user_id := user_id f;
     researcher_instructions := researcher_instructions f;
     answer_instructions := answer_instructions f;
     reviewer_instructions := reviewer_instructions f;
     refiner_instructions := refiner_instructions f;
     tavily_tool := tavily_tool f;
     research_agent := research_agent f;
     answer_agent := answer_agent f;
     reviewer_agent := reviewer_agent f;
     refiner_agent := refiner_agent f;
     base_workflow := base_workflow f;
     workflow_agent := workflow_agent f |}.

Section Initialisation.

(** [session_service.create_session] and the constructor of [Runner] belong
    to the framework: each returns its object or raises. *)
Variable create_session :
  option pystr -> option pystr -> pystr -> pyresult Session.
Variable new_Runner : BaseAgent -> option pystr -> pyresult Runner.

Definition call {A} (r : pyresult A) : M World A := fun w => (r, w).

Definition set_self (f : BaseResearchFlow -> BaseResearchFlow) : M World unit :=
  fun w =>
    (Returns tt,
     mk_World (f (self w)) (env w) (run_async_calls w) (observed w)).

Definition get_self : M World BaseResearchFlow := fun w => (Returns (self w), w).

Definition _setup_session_and_runner : M World unit :=
  try_except_Exception
    (f <- get_self ;;
     s <- call (create_session (app_name f) (user_id f) (session_id f)) ;;
     set_self (fun f => with_session f (Some s)) ;;
     r <- call (new_Runner (workflow_agent f) (app_name f)) ;;
     set_self (fun f => with_runner f (Some r)) ;;
     in_env (logger INFO (py "Session and runner initialized successfully")))
    (fun e =>
       in_env (logger ERROR
                 (py "Failed to initialize session and runner: " ++ exn_str e)) ;;
       raise e).

Definition initialize_async : M World unit := _setup_session_and_runner.

End Initialisation.

(** ** [agent.py]: [get_biographies] and the tools of [root_agent]

    The file does not parse as it stands: the docstring of [get_biographies]
    is closed at the end of its first line, and the lines of the body end up
    between stray quotes.  The function is modelled as its lines read. *)

Section Biographies.

(** [str.lower] maps a code point below 128 by the ASCII rule.  For the
    others it follows the Unicode character database, which is not part of
    the repository: [lower_nonascii before c after] is the lowercase of [c]
    between the texts [before] and [after] (one code point can give several,
    and the capital sigma depends on its neighbours). *)
Variable lower_nonascii : pystr -> N -> pystr -> pystr.

Fixpoint lower_from (before s : pystr) : pystr :=
  match s with
  | [] => []
  | c :: after =>
      (if c <? 128 then [ascii_lower c] else lower_nonascii before c after)
      ++ lower_from (before ++ [c]) after
  end.

(** [s.lower()] *)
Definition lower (s : pystr) : pystr := lower_from [] s.

(** Text equality [a == b]. *)
Definition str_eq (a b : pystr) : bool := bool_decide (a = b).

Definition get_biographies (name : pystr) : gmap string pystr :=
  if str_eq (lower name) (py "Pedro Sanchez") then
    {[ "status" := py "success";
       "report" :=
         py "Pedro Sanchez, was born in ... on ....  He as politician from PSOE" ]}
  else
    {[ "status" := py "error";
       "error_message" :=
         py " The is no information available for '" ++ name ++ py "'" ]}.

End Biographies.

(** The names [agent.py] binds at module level before [root_agent] is built:
    its imports and its two functions. *)
Definition module_names : list string :=
  ["datetime"; "ZoneInfo"; "Agent"; "get_biographies"; "get_current_time"].

(** The names in [tools=[...]] of [root_agent]. *)
Definition root_agent_tools : list string :=
  ["get_biographies"; "get_from_different_sources"].

(** The names of a list that the module does not bind. *)
Definition undefined_names (used : list string) : list string :=
  List.filter (fun n => negb (bool_decide (n ∈ module_names))) used.

(** ** Notions of the specification and sample data *)

(** What [get_review_status] and [get_review_feedback] read. *)
Definition review_result_of (f : BaseResearchFlow) : option pystr :=
  match session f with
  | Some s => state s !! "review_result"
  | None => None
  end.

(** The six agents that are built when no constructor raises. *)
Definition composed_agents (model_name : pystr)
    (researcher_instructions answer_instructions
     reviewer_instructions refiner_instructions : option pystr)
    (tavily_tool : LangchainTool) : Agents :=
  let research_agent :=
    Agent "ResearchAgent" model_name researcher_instructions
          [tavily_tool] "research_data" in
  let answer_agent :=
    Agent "AnswerAgent" model_name answer_instructions [] "answer_summary" in
  let reviewer_agent :=
    Agent "ReviewerAgent" model_name reviewer_instructions [] "review_result" in
  let refiner_agent :=
    Agent "RefinerAgent" model_name refiner_instructions []
          "refinement_action" in
  let base_workflow :=
    SequentialAgent "BaseResearchWorkflow" [research_agent; answer_agent] in
  let workflow_agent :=
    SequentialAgent "IterativeResearchWorkflow"
                    [base_workflow; reviewer_agent] in
  mk_Agents research_agent answer_agent reviewer_agent refiner_agent
            base_workflow workflow_agent.

(** Sample instructions, in place of the texts of [early_life_prompts]. *)
Definition sample_researcher : option pystr :=
  Some (py "You are a professional research specialist.").
Definition sample_answer : option pystr :=
  Some (py "You are a biographer researching the early life of political figures.").
Definition sample_reviewer : option pystr :=
  Some (py "You are a professional content reviewer and quality analyst.").
Definition sample_refiner : option pystr :=
  Some (py "You are a workflow coordinator for refinement.").

(** The flow [main.py] builds, with a given session and runner. *)
Definition sample_flow (s : option Session) (r : option Runner)
  : BaseResearchFlow :=
  let t := mk_LangchainTool (mk_Tavily 10 (py "advanced") false true false) in
  let a := composed_agents (py "gemini-1.5-flash-latest") sample_researcher
             sample_answer sample_reviewer sample_refiner t in
  {| model_name := py "gemini-1.5-flash-latest";
     session := s;
     runner := r;
     session_id := py "6f1c2d9e-0000-4000-8000-000000000001";
     app_name := Some (py "test_app_name");
     user_id := Some (py "test_user_id");
     researcher_instructions := sample_researcher;
     answer_instructions := sample_answer;
     reviewer_instructions := sample_reviewer;
     refiner_instructions := sample_refiner;
     tavily_tool := t;
     research_agent := agents_research a;
     answer_agent := agents_answer a;
     reviewer_agent := agents_reviewer a;
     refiner_agent := agents_refiner a;
     base_workflow := agents_base_workflow a;
     workflow_agent := agents_workflow a |}.

Definition sample_session (st : gmap string pystr) : Session :=
  mk_Session (Some (py "test_app_name")) (Some (py "test_user_id"))
             (py "6f1c2d9e-0000-4000-8000-000000000001") st.

(** A flow whose session holds the given [review_result]. *)
Definition flow_reviewed (r : pystr) : BaseResearchFlow :=
  sample_flow (Some (sample_session {[ "review_result" := r ]})) None.

(** The keyword arguments of [_setup_tools]. *)
Definition tavily_kwargs : TavilySearchResults :=
  {| max_results := 10;
     search_depth := py "advanced";
     include_answer := false;
     include_raw_content := true;
     include_images := false |}.

(** The first exception tool setup meets, if any. *)
Definition tool_setup_failure
    (tavily_init langchain_init : TavilySearchResults -> option exn)
  : option exn :=
  match tavily_init tavily_kwargs with
  | Some e => Some e
  | None => langchain_init tavily_kwargs
  end.

(** How often an LLM agent of the given name runs in a list of runs. *)
Definition runs_of (n : string) (runs : list Invocation) : nat :=
  length (List.filter (fun i => String.eqb n (agent_name (invoked i))) runs).

(** A text that a UTF-8 standard output can encode: it has no surrogate code
    point (U+D800 to U+DFFF) in it. *)
Definition encodable (s : pystr) : bool :=
  forallb (fun c => negb ((55296 <=? c) && (c <=? 57343))) s.

(** [without pat s out]: [out] is [s] with every occurrence of [pat] taken
    out, the occurrences being read from the left and not overlapping. *)
Inductive without (pat : pystr) : pystr -> pystr -> Prop :=
| without_end : without pat [] []
| without_occurrence (t out : pystr) :
    without pat t out -> without pat (pat ++ t) out
| without_keep (c : N) (s out : pystr) :
    (forall t, c :: s <> pat ++ t) ->
    without pat s out -> without pat (c :: s) (c :: out).

(** [stripped s t]: [t] is [s] without the white space at its two ends. *)
Definition stripped (s t : pystr) : Prop :=
  exists lead trail,
    s = lead ++ t ++ trail /\
    Forall (fun c => isspace c = true) lead /\
    Forall (fun c => isspace c = true) trail /\
    match t with [] => True | c :: _ => isspace c = false end /\
    match last t with Some c => isspace c = false | None => True end.

(** A name that is empty or white space only. *)
Definition blank (person_name : pystr) : bool := forallb isspace person_name.

(** An event that ends the loop of [research_person]: it is flagged as a
    final response and its content has at least one part. *)
Definition stops (event : Event) : bool :=
  is_final_response event &&
  match content event with
  | Some ct => match parts ct with Some (_ :: _) => true | _ => false end
  | None => false
  end.

(** The text of the first part of an event. *)
Definition final_text (event : Event) : option pystr :=
  match content event with
  | Some ct => match parts ct with Some (p :: _) => text p | _ => None end
  | None => None
  end.

(** A generator that makes the given steps (a state change, then an event)
    and goes on as [tail]. *)
Definition step : Type := (gmap string pystr -> gmap string pystr) * Event.

Definition yields (steps : list step) (tail : AsyncGenerator) : AsyncGenerator :=
  foldr (fun ce g => Yield (fst ce) (snd ce) g) tail steps.

(** The state after the state changes of the steps. *)
Definition commits (steps : list step) (st : gmap string pystr)
  : gmap string pystr :=
  foldl (fun st ce => fst ce st) st steps.

(** How a generator ends for the loop: it is exhausted, it yields an event
    that stops the loop, or it raises. *)
Definition terminal (tail : AsyncGenerator) : bool :=
  match tail with
  | StopAsyncIteration _ => true
  | Yield _ event _ => stops event
  | Throw _ _ => true
  end.

Definition tail_commit (tail : AsyncGenerator)
  : gmap string pystr -> gmap string pystr :=
  match tail with
  | StopAsyncIteration c | Yield c _ _ | Throw c _ => c
  end.

(** The events the loop takes from a tail. *)
Definition tail_events (tail : AsyncGenerator) : list Event :=
  match tail with
  | Yield _ event _ => [event]
  | StopAsyncIteration _ | Throw _ _ => []
  end.

(** The final response text the loop leaves. *)
Definition tail_response (tail : AsyncGenerator) : option pystr :=
  match tail with
  | Yield _ event _ => final_text event
  | StopAsyncIteration _ | Throw _ _ => None
  end.

(** The resolution order of the result: the summary of the session when it
    is there and not empty, else the final response text when there is one
    and it is not empty, else nothing. *)
Definition resolve (answer_summary final_response : option pystr)
  : option pystr :=
  match answer_summary with
  | Some (c :: a) => Some (c :: a)
  | Some [] | None =>
      match final_response with
      | Some (c :: t) => Some (c :: t)
      | Some [] | None => None
      end
  end.

(** The world when the loop of [research_person] is left, for a flow whose
    session is [s] and whose runner makes the steps and then [tail]: the name
    is written to the state, the start is logged and printed, the call of the
    runner is recorded, the state changes of the steps and of the tail are
    committed, the events of the steps and of the tail have been taken. *)
Definition world_after_loop (person_name : pystr) (w : World) (s : Session)
    (steps : list step) (tail : AsyncGenerator) : World :=
  mk_World
    (with_session (self w)
       (Some (with_state s
                (tail_commit tail
                   (commits steps
                      (<["person_name" := strip person_name]> (state s)))))))
    (mk_Env
       (log (env w)
        ++ [(INFO, py "Starting iterative research workflow for: " ++ person_name)]
        ++ match tail with
           | Yield _ _ _ =>
               [(INFO, py "Iterative research workflow completed successfully")]
           | StopAsyncIteration _ | Throw _ _ => []
           end)
       (stdout (env w)
        ++ [[128269]
            ++ py " Starting comprehensive research and review workflow for "
            ++ person_name ++ py "..."]))
    (run_async_calls w
     ++ [(user_id (self w), session_id (self w), user_message person_name)])
    (observed w ++ List.map snd steps ++ tail_events tail).

(** A world with one more record in the log. *)
Definition logged (lvl : Level) (msg : pystr) (w : World) : World :=
  mk_World (self w)
           (mk_Env (log (env w) ++ [(lvl, msg)]) (stdout (env w)))
           (run_async_calls w) (observed w).

(** The exception a tail raises, if it raises. *)
Definition tail_exception (tail : AsyncGenerator) : option exn :=
  match tail with
  | Throw _ e => Some e
  | StopAsyncIteration _ | Yield _ _ _ => None
  end.

(** An event with one text part. *)
Definition text_event (final : bool) (t : pystr) : Event :=
  mk_Event final (Some (mk_Content (Some (py "model")) (Some [mk_Part (Some t)]))).

(** The scenario of the specification: two events that are not final, then
    a final one with the text "final bio text"; [c] is the state change the
    agents commit before the first event. *)
Definition scenario_steps (c : gmap string pystr -> gmap string pystr)
  : list step :=
  [(c, text_event false (py "A")); (id, text_event false (py "B"))].

Definition scenario_tail : AsyncGenerator :=
  Yield id (text_event true (py "final bio text")) (StopAsyncIteration id).

Definition sample_runner (g : AsyncGenerator) : Runner :=
  mk_Runner (workflow_agent (sample_flow None None)) (Some (py "test_app_name"))
            (fun _ _ _ => g).

(** A fresh process around an initialised flow whose runner produces [g]. *)
Definition sample_world (st : gmap string pystr) (g : AsyncGenerator) : World :=
  mk_World (sample_flow (Some (sample_session st)) (Some (sample_runner g)))
           (mk_Env [] []) [] [].

(** A fresh process around a flow that was not initialised. *)
Definition uninitialised_world : World :=
  mk_World (sample_flow None None) (mk_Env [] []) [] [].

(** A code point that is an ASCII capital letter. *)
Definition ascii_upper (c : N) : Prop := 65 <= c <= 90.

(** A fragment of the lowercase mapping of the Unicode character database:
    the capital I with a dot above gives two code points, the Kelvin sign
    gives "k", the capital sigma gives the final sigma at the end of a
    word, the capital letters of Latin-1 give their small letters, and
    every other code point is left as it is. *)
Definition sample_lower_nonascii (before : pystr) (c : N) (after : pystr)
  : pystr :=
  if c =? 304 then [105; 775]
  else if c =? 8490 then [107]
  else if c =? 931 then
    match before, after with
    | _ :: _, [] => [962]
    | _, _ => [963]
    end
  else if (192 <=? c) && (c <=? 222) && negb (c =? 215) then [c + 32]
  else [c].

(** ** Further notions *)

(** A generator none of whose state changes touches the field [key]. *)
Fixpoint keeps (key : string) (g : AsyncGenerator) : Prop :=
  match g with
  | Yield c _ rest => (forall st, c st !! key = st !! key) /\ keeps key rest
  | StopAsyncIteration c => forall st, c st !! key = st !! key
  | Throw c _ => forall st, c st !! key = st !! key
  end.

(** A process around a flow that has a session and no runner. *)
Definition runnerless_world (st : gmap string pystr) : World :=
  mk_World (sample_flow (Some (sample_session st)) None) (mk_Env [] []) [] [].

(** ** [main.py]: the example *)

(** [try: body / except ValueError as e: ... / except Exception as e: ...].
    Whether the class of an exception derives from [ValueError] is given by
    [is_ValueError]. *)
Definition try_except_ValueError_Exception {S A} (is_ValueError : exn -> bool)
    (body : M S A) (on_ValueError on_Exception : exn -> M S A) : M S A :=
  fun s =>
    match body s with
    | (Returns a, s') => (Returns a, s')
    | (Raises e, s') =>
        if is_ValueError e then on_ValueError e s'
        else if derives_Exception e then on_Exception e s'
        else (Raises e, s')
    end.

(** The calls of the methods of a flow that the caller holds in a local
    variable: they run in a process around that flow, and the logger and the
    standard output are the caller's. *)
Definition in_world {A} (f : BaseResearchFlow) (m : M World A) : M Env A :=
  fun e =>
    let '(r, w) := m (mk_World f e [] []) in
    (r, env w).

(** [research_data[:1500] + "..." if len(research_data) > 1500 else
    research_data] *)
Definition truncated_data (research_data : pystr) : pystr :=
  if (1500 <? length research_data)%nat
  then take 1500 research_data ++ py "..."
  else research_data.

Section MainPy.

(** The environment variables after [load_dotenv()], the four texts of
    [early_life_prompts], the value of [uuid.uuid4()], the constructors of
    the libraries and the class test of [ValueError]. *)
Variable environ : gmap string pystr.
Variables researcher_prompt reviewer_prompt refiner_prompt answer_prompt : pystr.
Variable uuid : pystr.
Variable tavily_init : TavilySearchResults -> option exn.
Variable langchain_init : TavilySearchResults -> option exn.
Variable agent_init : BaseAgent -> option exn.
Variable create_session :
  option pystr -> option pystr -> pystr -> pyresult Session.
Variable new_Runner : BaseAgent -> option pystr -> pyresult Runner.
Variable is_ValueError : exn -> bool.

(** [MODEL_NAME = os.getenv("GEMINI_MODEL", "gemini-1.5-flash-latest")] *)
Definition MODEL_NAME : pystr :=
  default (py "gemini-1.5-flash-latest") (environ !! "GEMINI_MODEL").

(** The lines of [simple_research_example_async] from
    [initialize_async] on, on the flow it has built. *)
Definition example_run : M World unit :=
  initialize_async create_session new_Runner ;;
  let person_name := py "Keir Starmer" in
  in_env (print ([10; 128269]
                 ++ py " Researching professional information for: "
                 ++ person_name)) ;;
  in_env (print (replicate 60 61)) ;;
  in_env (print (py "Using Tavily web search for comprehensive, up-to-date information...")) ;;
  summary <- research_person person_name ;;
  match summary with
  | Some (c :: t) =>
      in_env (print ([10; 127919] ++ py " Final Professional Career Summary:")) ;;
      in_env (print (replicate 40 45)) ;;
      in_env (print (c :: t)) ;;
      f <- get_self ;;
      review_status <- call (get_review_status f) ;;
      review_feedback <- call (get_review_feedback f) ;;
      match review_status, review_feedback with
      | Some (s0 :: st), Some (f0 :: ft) =>
          in_env (print ([10; 128203] ++ py " Quality Review Status: "
                         ++ (s0 :: st))) ;;
          in_env (print ([128221] ++ py " Review Process Details:")) ;;
          in_env (print (replicate 35 45)) ;;
          in_env (print (f0 :: ft))
      | _, _ => ret tt
      end ;;
      research_data <- call (get_research_data f) ;;
      match research_data with
      | Some (d0 :: dt) =>
          in_env (print ([10; 128202]
                         ++ py " Detailed Research Data (from Web Sources):")) ;;
          in_env (print (replicate 45 45)) ;;
          in_env (print (truncated_data (d0 :: dt)))
      | Some [] | None => ret tt
      end ;;
      in_env (print ([10; 9989]
                     ++ py " Iterative research and review process completed successfully!"))
  | Some [] | None =>
      in_env (print ([10060] ++ py " Could not generate professional summary."))
  end.

Definition simple_research_example_async : M Env unit :=
  if negb (truthy_opt (environ !! "TAVILY_API_KEY")) then
    print ([10060] ++ py " Error: TAVILY_API_KEY environment variable not set") ;;
    print ([10; 128161] ++ py " To run this example:") ;;
    print (py "1. Get a Tavily API key from https://tavily.com") ;;
    print (py "2. Set the environment variable:") ;;
    print (py "   export TAVILY_API_KEY='your-api-key-here'") ;;
    print (py "3. Or create a .env file with: TAVILY_API_KEY=your-api-key-here")
  else
    try_except_ValueError_Exception is_ValueError
      (print ([128640]
              ++ py " Initializing Professional Research Agent with Web Search...") ;;
       research_flow <-
         __init__ tavily_init langchain_init agent_init uuid MODEL_NAME
                  (Some researcher_prompt) (Some reviewer_prompt)
                  (Some refiner_prompt) (Some answer_prompt)
                  (Some (py "test_app_name")) (Some (py "test_user_id")) ;;
       in_world research_flow example_run)
      (fun e =>
         if contains (py "TAVILY_API_KEY") (exn_str e) then
           print ([10060] ++ py " Configuration Error: " ++ exn_str e) ;;
           print ([10; 128161]
                  ++ py " Make sure your TAVILY_API_KEY is valid and properly set.")
         else
           print ([10060] ++ py " Error: " ++ exn_str e))
      (fun e =>
         print ([10060] ++ py " Unexpected error: " ++ exn_str e) ;;
         print (py "Please check your internet connection and API key.")).

(** [simple_research_example] runs it to its end. *)
Definition simple_research_example : M Env unit := simple_research_example_async.

End MainPy.

(** ** [agent.py]: [get_current_time] *)

Section CurrentTime.

Variable lower_nonascii : pystr -> N -> pystr -> pystr.

(** [ZoneInfo(key)] and the clock are not part of the repository:
    [zoneinfo_init key] is the exception [ZoneInfo] raises on this key, if
    it raises, and [now_strftime key] is the text of
    [datetime.datetime.now(tz).strftime("%Y-%m-%d %H:%M:%S %Z%z")] at the
    time of the call. *)
Variable zoneinfo_init : pystr -> option exn.
Variable now_strftime : pystr -> pystr.

Definition get_current_time (city : pystr) : pyresult (gmap string pystr) :=
  if str_eq (lower lower_nonascii city) (py "new york") then
    let tz_identifier := py "America/New_York" in
    match zoneinfo_init tz_identifier with
    | Some e => Raises e
    | None =>
        let report :=
          py "The current time in " ++ city ++ py " is "
          ++ now_strftime tz_identifier in
        Returns {[ "status" := py "success"; "report" := report ]}
    end
  else
    Returns {[ "status" := py "error";
               "error_message" :=
                 py "Sorry, I don't have timezone information for "
                 ++ city ++ py "." ]}.

End CurrentTime.

(** Sample constructors of the framework that do not raise. *)
Definition sample_create_session (app user : option pystr) (sid : pystr)
  : pyresult Session :=
  Returns (mk_Session app user sid ∅).

Definition sample_new_Runner (g : AsyncGenerator) (a : BaseAgent)
    (app : option pystr) : pyresult Runner :=
  Returns (mk_Runner a app (fun _ _ _ => g)).

(** Sample replies of the model: the reviewer asks for improvement. *)
Definition sample_model_reply (a : BaseAgent) (st : gmap string pystr) : pystr :=
  if String.eqb (agent_name a) "ReviewerAgent" then
    py "NEEDS_IMPROVEMENT: missing dates|RESEARCH_NEEDED: dates"
  else if String.eqb (agent_name a) "AnswerAgent" then
    py "Keir Starmer was born in 1962."
  else py "Born on 2 September 1962 in Southwark.".

(** * Properties *)

(** ** Python text *)

Example strip_example : strip (py "  Keir Starmer  ") = py "Keir Starmer".
Proof. reflexivity. Qed.

Example replace_example :
  replace (py "APPROVED: solid summary") (py "APPROVED:") [] = py " solid summary".
Proof. reflexivity. Qed.

Example split_example :
  split (py "a|b||c") (py "|") = [py "a"; py "b"; []; py "c"].
Proof. reflexivity. Qed.

Example replace_empty_example :
  replace (py "abc") [] (py "-") = py "-a-b-c-".
Proof. reflexivity. Qed.

Section PyStrFacts.

Implicit Types (s p t old new : pystr) (c : N).

Lemma startswith_app p t : startswith (p ++ t) p = true.
Proof.
  induction p as [|a p IH]; simpl; [reflexivity|].
  rewrite N.eqb_refl. exact IH.
Qed.

(** [s.startswith(p)] holds exactly when [s] is [p] followed by some text. *)
Lemma startswith_prefix s p : startswith s p = true <-> exists t, s = p ++ t.
Proof.
  split.
  - revert s. induction p as [|a p IH]; intros s H.
    + exists s. reflexivity.
    + destruct s as [|b s]; simpl in H; [discriminate|].
      apply andb_true_iff in H as [Hab Hs].
      apply N.eqb_eq in Hab. subst b.
      destruct (IH s Hs) as [t ->]. exists t. reflexivity.
  - intros [t ->]. apply startswith_app.
Qed.

Lemma contains_app_r p a t : contains p t = true -> contains p (a ++ t) = true.
Proof.
  intros H. induction a as [|c a IH]; simpl; [exact H|].
  rewrite IH. apply orb_true_r.
Qed.

Lemma contains_head p s : startswith s p = true -> contains p s = true.
Proof. intros H. destruct s; simpl; rewrite H; reflexivity. Qed.

(** [p in s] holds exactly when [p] occurs somewhere in [s]. *)
Lemma contains_occurs p s :
  contains p s = true <-> exists a b, s = a ++ p ++ b.
Proof.
  split.
  - induction s as [|c s IH]; simpl; intros H.
    + rewrite orb_false_r in H. apply startswith_prefix in H as [t Ht].
      exists [], t. exact Ht.
    + apply orb_true_iff in H as [H|H].
      * apply startswith_prefix in H as [t Ht]. exists [], t. exact Ht.
      * destruct (IH H) as (a & b & ->). exists (c :: a), b. reflexivity.
  - intros (a & b & ->). apply contains_app_r, contains_head, startswith_app.
Qed.

Lemma contains_cons_false p c s :
  contains p (c :: s) = false ->
  startswith (c :: s) p = false /\ contains p s = false.
Proof. simpl. intros H. apply orb_false_iff in H. exact H. Qed.

(** *** [replace] *)

Lemma replace_from_skip old new (u t : pystr) :
  replace_from old new (length u) (u ++ t) = replace_from old new O t
  \/ (u ++ t = [] /\ u = []).
Proof.
  induction u as [|c u IH]; simpl.
  - left. reflexivity.
  - left. destruct IH as [IH|[E ->]]; [exact IH|].
    simpl in *. subst t. reflexivity.
Qed.

Lemma replace_from_skip_eq old new (u t : pystr) :
  replace_from old new (length u) (u ++ t) = replace_from old new O t.
Proof.
  destruct (replace_from_skip old new u t) as [H|[E ->]]; [exact H|].
  reflexivity.
Qed.

(** A match at the head is replaced, and the scan goes on after it. *)
Lemma replace_prefix old new t :
  old <> [] -> replace (old ++ t) old new = new ++ replace t old new.
Proof.
  intros Hne. destruct old as [|a old]; [congruence|].
  unfold replace. change ((a :: old) ++ t) with (a :: (old ++ t)).
  cbn [replace_from].
  change (a :: old ++ t) with ((a :: old) ++ t).
  rewrite startswith_app. cbn [length Nat.pred].
  rewrite replace_from_skip_eq. reflexivity.
Qed.

Lemma replace_head_mismatch old new c s :
  old <> [] -> startswith (c :: s) old = false ->
  replace (c :: s) old new = c :: replace s old new.
Proof.
  intros Hne H. destruct old as [|a old]; [congruence|].
  unfold replace. cbn [replace_from]. rewrite H. reflexivity.
Qed.

(** A text without any occurrence is left as it is. *)
Lemma replace_absent old new s :
  old <> [] -> contains old s = false -> replace s old new = s.
Proof.
  intros Hne. induction s as [|c s IH]; intros H.
  - destruct old; [congruence|reflexivity].
  - apply contains_cons_false in H as [H1 H2].
    rewrite replace_head_mismatch by assumption.
    rewrite IH by assumption. reflexivity.
Qed.

Lemma count_app c s t : count c (s ++ t) = (count c s + count c t)%nat.
Proof.
  induction s as [|d s IH]; simpl; [reflexivity|].
  destruct (c =? d); rewrite IH; reflexivity.
Qed.

(** Removing the occurrences of [old] keeps every code point that is not
    one of [old]. *)
Lemma count_replace_removed c old s :
  old <> [] -> count c old = O ->
  count c (replace s old []) = count c s.
Proof.
  intros Hne Hc.
  remember (length s) as n eqn:Hn.
  revert s Hn. induction n as [n IH] using lt_wf_ind. intros s Hn.
  destruct s as [|d s]; [destruct old; [congruence|reflexivity]|].
  destruct (startswith (d :: s) old) eqn:E.
  - apply startswith_prefix in E as [t Ht]. rewrite Ht.
    rewrite replace_prefix by assumption. simpl app.
    rewrite count_app, Hc. simpl.
    apply (IH (length t)); [|reflexivity].
    subst n. rewrite Ht, length_app.
    destruct old; [congruence|simpl; lia].
  - rewrite replace_head_mismatch by assumption. simpl.
    rewrite (IH (length s)); [reflexivity| |reflexivity].
    subst n. simpl. lia.
Qed.

(** *** [strip] *)

Lemma rstrip_cons_nonspace c s :
  isspace c = false -> rstrip (c :: s) = c :: rstrip s.
Proof. intros H. simpl. rewrite H. destruct (rstrip s); reflexivity. Qed.

Lemma count_lstrip c s : isspace c = false -> count c (lstrip s) = count c s.
Proof.
  intros H. induction s as [|d s IH]; simpl; [reflexivity|].
  destruct (isspace d) eqn:Ed; [|reflexivity].
  rewrite IH. destruct (c =? d) eqn:E; [|reflexivity].
  apply N.eqb_eq in E. congruence.
Qed.

Lemma count_rstrip c s : isspace c = false -> count c (rstrip s) = count c s.
Proof.
  intros H. induction s as [|d s IH]; simpl; [reflexivity|].
  destruct (rstrip s) as [|e r] eqn:Er.
  - destruct (isspace d) eqn:Ed; simpl.
    + destruct (c =? d) eqn:E; [apply N.eqb_eq in E; congruence|].
      rewrite <- IH. reflexivity.
    + rewrite <- IH. reflexivity.
  - change (count c (d :: e :: r)) with
      (if c =? d then S (count c (e :: r)) else count c (e :: r)).
    rewrite IH. reflexivity.
Qed.

(** [strip] removes white space only. *)
Lemma count_strip c s : isspace c = false -> count c (strip s) = count c s.
Proof.
  intros H. unfold strip. rewrite count_rstrip, count_lstrip by assumption.
  reflexivity.
Qed.

(** A text is empty after [strip] exactly when it is white space only. *)
Lemma lstrip_nil s : lstrip s = [] <-> forallb isspace s = true.
Proof.
  induction s as [|c s IH]; simpl; [tauto|].
  destruct (isspace c); simpl; [exact IH|].
  split; discriminate.
Qed.

Lemma rstrip_nil s : rstrip s = [] <-> forallb isspace s = true.
Proof.
  induction s as [|c s IH]; simpl; [tauto|].
  destruct (rstrip s) as [|e r].
  - destruct (isspace c); simpl; [tauto|]. split; discriminate.
  - split; [discriminate|].
    intros H. apply andb_true_iff in H as [_ H].
    apply IH in H. discriminate.
Qed.

Lemma lstrip_all_space_or_head s :
  lstrip s = [] \/ exists c t, lstrip s = c :: t /\ isspace c = false.
Proof.
  induction s as [|c s IH]; simpl; [left; reflexivity|].
  destruct (isspace c) eqn:E; [exact IH|].
  right. exists c, s. split; [reflexivity|exact E].
Qed.

Lemma strip_nil s : strip s = [] <-> forallb isspace s = true.
Proof.
  unfold strip. split.
  - intros H. apply lstrip_nil.
    destruct (lstrip_all_space_or_head s) as [E|(c & t & E & Hc)]; [exact E|].
    rewrite E in H. rewrite rstrip_cons_nonspace in H by assumption.
    discriminate.
  - intros H. apply lstrip_nil in H. rewrite H. reflexivity.
Qed.

(** *** [split] on a single code point *)

Lemma split_from_nonempty sep k cur s : split_from sep k cur s <> [].
Proof.
  revert k cur. induction s as [|c s IH]; intros k cur; simpl; [discriminate|].
  destruct k; [|apply IH].
  destruct (startswith (c :: s) sep); [discriminate|apply IH].
Qed.

Lemma split_from_first c cur a rest :
  count c a = O ->
  exists more,
    split_from [c] O cur (a ++ c :: rest) = (rev cur ++ a) :: more.
Proof.
  revert cur. induction a as [|d a IH]; intros cur H.
  - simpl. rewrite N.eqb_refl. simpl. rewrite app_nil_r. eauto.
  - simpl in H. destruct (c =? d) eqn:E; [discriminate|].
    simpl. rewrite E. simpl.
    destruct (IH (d :: cur) H) as [more ->]. exists more.
    simpl. rewrite <- app_assoc. reflexivity.
Qed.

Lemma split_from_whole c cur a :
  count c a = O -> split_from [c] O cur a = [rev cur ++ a].
Proof.
  revert cur. induction a as [|d a IH]; intros cur H.
  - simpl. rewrite app_nil_r. reflexivity.
  - simpl in H. destruct (c =? d) eqn:E; [discriminate|].
    simpl. rewrite E. simpl. rewrite (IH (d :: cur) H).
    simpl. rewrite <- app_assoc. reflexivity.
Qed.

(** The first piece of [split] is the text before the first separator, or
    the whole text when there is no separator. *)
Lemma split_from_decompose c s :
  forall cur, exists before more,
    split_from [c] O cur s = (rev cur ++ before) :: more /\
    count c before = O /\
    (s = before \/ exists rest, s = before ++ c :: rest).
Proof.
  induction s as [|d s IH]; intros cur.
  - exists [], []. simpl. rewrite app_nil_r. auto.
  - simpl. destruct (c =? d) eqn:E; simpl.
    + apply N.eqb_eq in E. subst d.
      exists [], (split_from [c] O [] s). rewrite app_nil_r.
      split; [reflexivity|]. split; [reflexivity|]. right. exists s. reflexivity.
    + destruct (IH (d :: cur)) as (before & more & Hsp & Hc & Hs).
      exists (d :: before), more. split; [|split].
      * rewrite Hsp. simpl. rewrite <- app_assoc. reflexivity.
      * simpl. rewrite E. exact Hc.
      * destruct Hs as [->|[rest ->]]; [left; reflexivity|].
        right. exists rest. reflexivity.
Qed.

Lemma contains_single_count c s : contains [c] s = false <-> count c s = O.
Proof.
  induction s as [|d s IH]; simpl; [tauto|].
  destruct (c =? d); simpl; [split; discriminate|exact IH].
Qed.

End PyStrFacts.

(** ** The review accessors *)

Lemma startswith_needs_not_approved t :
  startswith (py "NEEDS_IMPROVEMENT:" ++ t) (py "APPROVED:") = false.
Proof. reflexivity. Qed.

Lemma startswith_approved_not_needs t :
  startswith (py "APPROVED:" ++ t) (py "NEEDS_IMPROVEMENT:") = false.
Proof. reflexivity. Qed.

Lemma get_review_status_approved f t :
  review_result_of f = Some (py "APPROVED:" ++ t) ->
  get_review_status f = Returns (Some (py "APPROVED")).
Proof.
  unfold review_result_of, get_review_status. intros ->.
  change (truthy (py "APPROVED:" ++ t)) with true. cbv iota.
  rewrite startswith_app. reflexivity.
Qed.

Lemma get_review_status_needs f t :
  review_result_of f = Some (py "NEEDS_IMPROVEMENT:" ++ t) ->
  get_review_status f = Returns (Some (py "NEEDS_IMPROVEMENT")).
Proof.
  unfold review_result_of, get_review_status. intros ->.
  change (truthy (py "NEEDS_IMPROVEMENT:" ++ t)) with true. cbv iota.
  rewrite startswith_needs_not_approved, startswith_app. reflexivity.
Qed.

(** C6.  Whatever the session holds, [get_review_status] returns (it does not
    raise), and what it returns is "APPROVED", "NEEDS_IMPROVEMENT" or [None]:
    "APPROVED" exactly when there is a session whose [review_result] starts
    with "APPROVED:", "NEEDS_IMPROVEMENT" exactly when it starts with
    "NEEDS_IMPROVEMENT:", and [None] in every other case (no session, no
    result, the empty text, any other text). *)
Theorem get_review_status_classifies (f : BaseResearchFlow) :
  exists v : option pystr,
    get_review_status f = Returns v /\
    (v = Some (py "APPROVED") \/ v = Some (py "NEEDS_IMPROVEMENT") \/ v = None) /\
    (v = Some (py "APPROVED") <->
       exists t, review_result_of f = Some (py "APPROVED:" ++ t)) /\
    (v = Some (py "NEEDS_IMPROVEMENT") <->
       exists t, review_result_of f = Some (py "NEEDS_IMPROVEMENT:" ++ t)) /\
    (v = None <->
       forall t, review_result_of f <> Some (py "APPROVED:" ++ t) /\
                 review_result_of f <> Some (py "NEEDS_IMPROVEMENT:" ++ t)).
Proof.
  destruct (review_result_of f) as [r|] eqn:Hr.
  - destruct (startswith r (py "APPROVED:")) eqn:Ea.
    + apply startswith_prefix in Ea as [t ->].
      exists (Some (py "APPROVED")).
      split; [apply (get_review_status_approved f t Hr)|].
      split; [auto|]. split; [|split].
      * split; [intros _; exists t; reflexivity|reflexivity].
      * split; [discriminate|]. intros [u Hu]. discriminate Hu.
      * split; [discriminate|]. intros H. destruct (H t) as [H1 _]. exfalso. apply H1. reflexivity.
    + destruct (startswith r (py "NEEDS_IMPROVEMENT:")) eqn:En.
      * apply startswith_prefix in En as [t ->].
        exists (Some (py "NEEDS_IMPROVEMENT")).
        split; [apply (get_review_status_needs f t Hr)|].
        split; [auto|]. split; [|split].
        -- split; [discriminate|]. intros [u Hu]. discriminate Hu.
        -- split; [intros _; exists t; reflexivity|reflexivity].
        -- split; [discriminate|]. intros H. destruct (H t) as [_ H2]. exfalso. apply H2. reflexivity.
      * exists None. split.
        { unfold get_review_status. fold (review_result_of f). rewrite Hr.
          rewrite Ea, En. destruct (truthy r); reflexivity. }
        split; [auto|]. split; [|split].
        -- split; [discriminate|]. intros [u Hu].
           apply (inj Some) in Hu. subst r. rewrite startswith_app in Ea. discriminate.
        -- split; [discriminate|]. intros [u Hu].
           apply (inj Some) in Hu. subst r. rewrite startswith_app in En. discriminate.
        -- split; [|reflexivity]. intros _ t.
           split; intros Hu;
             apply (inj Some) in Hu; subst r.
           ++ rewrite startswith_app in Ea. discriminate.
           ++ rewrite startswith_app in En. discriminate.
  - exists None. split.
    { unfold get_review_status. fold (review_result_of f). rewrite Hr. reflexivity. }
    split; [auto|]. split; [|split].
    + split; [discriminate|]. intros [u Hu]. discriminate.
    + split; [discriminate|]. intros [u Hu]. discriminate.
    + split; [|reflexivity]. intros _ t. split; discriminate.
Qed.

Lemma rstrip_app_nonspace (a x : pystr) :
  forallb (fun c => negb (isspace c)) a = true ->
  rstrip (a ++ x) = a ++ rstrip x.
Proof.
  induction a as [|c a IH]; intros H; [reflexivity|].
  simpl in H. apply andb_true_iff in H as [Hc Ha].
  apply negb_true_iff in Hc.
  change ((c :: a) ++ x) with (c :: (a ++ x)).
  rewrite rstrip_cons_nonspace by assumption.
  rewrite IH by assumption. reflexivity.
Qed.

Lemma strip_needs_prefix (x : pystr) :
  strip (py "NEEDS_IMPROVEMENT:" ++ x) = py "NEEDS_IMPROVEMENT:" ++ rstrip x.
Proof.
  unfold strip.
  change (lstrip (py "NEEDS_IMPROVEMENT:" ++ x)) with (py "NEEDS_IMPROVEMENT:" ++ x).
  apply rstrip_app_nonspace. reflexivity.
Qed.

Lemma replace_approved_after_needs (t : pystr) :
  replace (py "NEEDS_IMPROVEMENT:" ++ t) (py "APPROVED:") []
  = py "NEEDS_IMPROVEMENT:" ++ replace t (py "APPROVED:") [].
Proof. reflexivity. Qed.

(** The branch taken when "APPROVED:" occurs anywhere in the text. *)
Lemma get_review_feedback_approved_branch (f : BaseResearchFlow) (r : pystr) :
  review_result_of f = Some r ->
  contains (py "APPROVED:") r = true ->
  get_review_feedback f
  = Returns (Some (strip (replace r (py "APPROVED:") []))).
Proof.
  intros Hr Hc. unfold get_review_feedback. fold (review_result_of f).
  rewrite Hr, Hc. destruct r; [discriminate Hc|reflexivity].
Qed.

(** The branch taken when "APPROVED:" does not occur and "NEEDS_IMPROVEMENT:"
    does: only the piece before the first "|" is used. *)
Lemma get_review_feedback_needs_branch (f : BaseResearchFlow) (r p0 : pystr)
    (more : list pystr) :
  review_result_of f = Some r ->
  contains (py "APPROVED:") r = false ->
  contains (py "NEEDS_IMPROVEMENT:") r = true ->
  split r (py "|") = p0 :: more ->
  get_review_feedback f
  = Returns (Some (strip (replace p0 (py "NEEDS_IMPROVEMENT:") []))).
Proof.
  intros Hr Ha Hn Hs. unfold get_review_feedback. fold (review_result_of f).
  rewrite Hr, Ha, Hn, Hs. destruct r; [discriminate Hn|reflexivity].
Qed.

(** [get_review_feedback] never raises: [split] gives at least one piece. *)
Lemma get_review_feedback_returns (f : BaseResearchFlow) :
  exists v, get_review_feedback f = Returns v.
Proof.
  unfold get_review_feedback.
  destruct (match session f with Some s => state s !! "review_result" | None => None end)
    as [r|]; [|eauto].
  destruct (truthy r); [|eauto].
  destruct (contains (py "APPROVED:") r); [eauto|].
  destruct (contains (py "NEEDS_IMPROVEMENT:") r); [|eauto].
  destruct (split r (py "|")) eqn:E; [|eauto].
  exfalso. exact (split_from_nonempty _ _ _ _ E).
Qed.

(** What [get_review_feedback] does, by the form of the text.  It takes its
    branch by what occurs in [review_result] and removes every occurrence of
    the verdict marker of that branch.  When "APPROVED:" occurs in the text, the
    result is the text without the occurrences of "APPROVED:", stripped of
    white space.  When "APPROVED:" does not occur and "NEEDS_IMPROVEMENT:"
    does, the text is cut at its first "|" and the result is the part before
    it without the occurrences of "NEEDS_IMPROVEMENT:", stripped.  So for
    "APPROVED:" + body, with no further "APPROVED:" in the body, the result is
    the body stripped, and for "NEEDS_IMPROVEMENT:" + body + "|" + rest (or
    without the "|" part), with "APPROVED:" nowhere and no "|" and no further
    "NEEDS_IMPROVEMENT:" in the body, the result is the body stripped.  On
    "NEEDS_IMPROVEMENT: missing dates|RESEARCH_NEEDED: dates" it returns
    "missing dates", on "APPROVED: solid summary" it returns
    "solid summary". *)
Theorem get_review_feedback_by_form (f : BaseResearchFlow) (r body rest : pystr) :
  review_result_of f = Some r ->
  contains (py "APPROVED:") body = false ->
  (contains (py "APPROVED:") r = true ->
   get_review_feedback f
   = Returns (Some (strip (replace r (py "APPROVED:") [])))) /\
  (contains (py "APPROVED:") r = false ->
   contains (py "NEEDS_IMPROVEMENT:") r = true ->
   exists before,
     count 124 before = O /\
     (r = before \/ exists after, r = before ++ py "|" ++ after) /\
     get_review_feedback f
     = Returns (Some (strip (replace before (py "NEEDS_IMPROVEMENT:") [])))) /\
  (r = py "APPROVED:" ++ body ->
   get_review_feedback f = Returns (Some (strip body))) /\
  (contains (py "APPROVED:") r = false ->
   contains (py "NEEDS_IMPROVEMENT:") body = false ->
   contains (py "|") body = false ->
   r = py "NEEDS_IMPROVEMENT:" ++ body ++ py "|" ++ rest
   \/ r = py "NEEDS_IMPROVEMENT:" ++ body ->
   get_review_feedback f = Returns (Some (strip body))) /\
  (r = py "NEEDS_IMPROVEMENT: missing dates|RESEARCH_NEEDED: dates" ->
   get_review_feedback f = Returns (Some (py "missing dates"))) /\
  (r = py "APPROVED: solid summary" ->
   get_review_feedback f = Returns (Some (py "solid summary"))).
Proof.
  intros Hr Hbody. split; [|split; [|split; [|split; [|split]]]].
  - apply get_review_feedback_approved_branch, Hr.
  - intros Ha Hn.
    destruct (split_from_decompose 124 r []) as (before & more & Hsp & Hc & Hs).
    exists before. split; [exact Hc|]. split; [exact Hs|].
    apply (get_review_feedback_needs_branch f r before more Hr Ha Hn).
    exact Hsp.
  - intros ->.
    rewrite (get_review_feedback_approved_branch f _ Hr)
      by apply contains_head, startswith_app.
    rewrite replace_prefix by discriminate.
    rewrite replace_absent by (discriminate || assumption).
    reflexivity.
  - intros Ha Hn Hbar Hform.
    assert (Hcount : count 124 (py "NEEDS_IMPROVEMENT:" ++ body) = O).
    { change (py "|") with [124] in Hbar.
      apply contains_single_count in Hbar.
      rewrite count_app, Hbar. reflexivity. }
    assert (Hsplit : exists more,
               split r (py "|") = (py "NEEDS_IMPROVEMENT:" ++ body) :: more).
    { destruct Hform as [-> | ->].
      - destruct (split_from_first 124 [] _ rest Hcount) as [more Hm].
        exists more. unfold split. change (py "|") with [124].
        rewrite <- app_assoc in Hm. exact Hm.
      - exists []. unfold split. change (py "|") with [124].
        exact (split_from_whole 124 [] _ Hcount). }
    destruct Hsplit as [more Hsplit].
    assert (Hin : contains (py "NEEDS_IMPROVEMENT:") r = true).
    { destruct Hform as [-> | ->]; apply contains_head, startswith_app. }
    rewrite (get_review_feedback_needs_branch f r _ more Hr Ha Hin Hsplit).
    rewrite replace_prefix by discriminate.
    rewrite replace_absent by (discriminate || assumption).
    reflexivity.
  - intros ->. unfold get_review_feedback. fold (review_result_of f).
    rewrite Hr. vm_compute. reflexivity.
  - intros ->. unfold get_review_feedback. fold (review_result_of f).
    rewrite Hr. vm_compute. reflexivity.
Qed.

(** The text before the first "|" of the review of the specification is
    returned for it. *)
Lemma get_review_feedback_missing_dates :
  get_review_feedback
    (flow_reviewed (py "NEEDS_IMPROVEMENT: missing dates|RESEARCH_NEEDED: dates"))
  = Returns (Some (strip (py " missing dates"))).
Proof.
  refine (proj1 (proj2 (proj2 (proj2
    (get_review_feedback_by_form
       (flow_reviewed (py "NEEDS_IMPROVEMENT: missing dates|RESEARCH_NEEDED: dates"))
       (py "NEEDS_IMPROVEMENT: missing dates|RESEARCH_NEEDED: dates")
       (py " missing dates") (py "RESEARCH_NEEDED: dates") _ _)))) _ _ _ _).
  - vm_compute. reflexivity.
  - vm_compute. reflexivity.
  - vm_compute. reflexivity.
  - vm_compute. reflexivity.
  - vm_compute. reflexivity.
  - left. vm_compute. reflexivity.
Qed.

(** C7.  The code breaks the claim on a review whose verdict is
    "NEEDS_IMPROVEMENT" and that has "APPROVED:" further on.  For
    "NEEDS_IMPROVEMENT: a APPROVED: b|c" the verdict [get_review_status]
    gives is "NEEDS_IMPROVEMENT", since it looks at the start of the text,
    and the claim asks for "a APPROVED: b", the text without the verdict
    prefix, cut at the first "|".  [get_review_feedback] tests
    ["APPROVED:" in review_result] first and returns
    "NEEDS_IMPROVEMENT: a  b|c": the prefix is kept and the text is not cut,
    which its own "NEEDS_IMPROVEMENT:" branch would have done. *)
Lemma get_review_feedback_keeps_prefix_and_bar :
  let f := flow_reviewed (py "NEEDS_IMPROVEMENT: a APPROVED: b|c") in
  get_review_status f = Returns (Some (py "NEEDS_IMPROVEMENT")) /\
  get_review_feedback f = Returns (Some (py "NEEDS_IMPROVEMENT: a  b|c")) /\
  get_review_feedback f <> Returns (Some (py "a APPROVED: b")).
Proof.
  vm_compute. split; [reflexivity|]. split; [reflexivity|]. discriminate.
Qed.

(** *** What [replace] and [strip] compute *)

(** [replace] with an empty replacement takes every occurrence out, read
    from the left. *)
Lemma replace_without (pat s : pystr) :
  pat <> [] -> without pat s (replace s pat []).
Proof.
  intros Hne.
  induction s as [s IH] using (induction_ltof1 _ (@length N)).
  unfold ltof in IH. destruct s as [|c s].
  - destruct pat; [congruence|]. apply without_end.
  - destruct (startswith (c :: s) pat) eqn:E.
    + apply startswith_prefix in E as [t E].
      assert (Hlen : (length t < length (c :: s))%nat).
      { rewrite E, length_app. destruct pat; [congruence|]. simpl. lia. }
      rewrite E, replace_prefix by assumption.
      apply without_occurrence, IH, Hlen.
    + rewrite replace_head_mismatch by assumption.
      apply without_keep.
      * intros t Ht. rewrite Ht, startswith_app in E. discriminate.
      * apply IH. simpl. lia.
Qed.

(** There is one text only that is [s] with the occurrences taken out. *)
Lemma without_functional (pat s o1 o2 : pystr) :
  pat <> [] -> without pat s o1 -> without pat s o2 -> o1 = o2.
Proof.
  intros Hne H1. revert o2.
  induction H1 as [|t out H IH|c s out Hk H IH]; intros o2 H2.
  - inversion H2 as [|t' out' H' E|]; [reflexivity|].
    destruct pat; [congruence|discriminate].
  - remember (pat ++ t) as u eqn:Eu.
    destruct H2 as [|t' out' H'|c s out' Hk' H'].
    + destruct pat; [congruence|discriminate].
    + apply app_inv_head in Eu. subst t'. apply IH, H'.
    + exfalso. exact (Hk' t Eu).
  - remember (c :: s) as u eqn:Eu.
    destruct H2 as [|t' out' H'|c' s' out' Hk' H'].
    + discriminate.
    + exfalso. apply (Hk t'). reflexivity.
    + injection Eu as -> ->. f_equal. apply IH, H'.
Qed.

Lemma lstrip_decompose (s : pystr) :
  exists lead, s = lead ++ lstrip s /\ Forall (fun c => isspace c = true) lead.
Proof.
  induction s as [|c s (lead & E & F)]; simpl.
  - exists []. split; [reflexivity|constructor].
  - destruct (isspace c) eqn:Ec.
    + exists (c :: lead). split; [simpl; f_equal; exact E|].
      constructor; assumption.
    + exists []. split; [reflexivity|constructor].
Qed.

Lemma rstrip_decompose (s : pystr) :
  exists trail,
    s = rstrip s ++ trail /\ Forall (fun c => isspace c = true) trail.
Proof.
  induction s as [|c s (trail & E & F)]; simpl.
  - exists []. split; [reflexivity|constructor].
  - destruct (rstrip s) as [|e r].
    + destruct (isspace c) eqn:Ec.
      * exists (c :: trail). split; [simpl; f_equal; exact E|].
        constructor; assumption.
      * exists trail. split; [simpl; f_equal; exact E|exact F].
    + exists trail. split; [simpl; f_equal; exact E|exact F].
Qed.

Lemma rstrip_last (s : pystr) :
  match last (rstrip s) with
  | Some c => isspace c = false
  | None => True
  end.
Proof.
  induction s as [|c s IH]; simpl; [exact I|].
  destruct (rstrip s) as [|e r].
  - destruct (isspace c) eqn:Ec; simpl; [exact I|exact Ec].
  - exact IH.
Qed.

(** [strip] takes the white space off the two ends, and nothing else. *)
Lemma strip_stripped (s : pystr) : stripped s (strip s).
Proof.
  destruct (lstrip_decompose s) as (lead & E1 & F1).
  destruct (rstrip_decompose (lstrip s)) as (trail & E2 & F2).
  exists lead, trail. unfold strip.
  split; [rewrite <- E2; exact E1|].
  split; [exact F1|]. split; [exact F2|].
  split; [|apply rstrip_last].
  destruct (lstrip_all_space_or_head s) as [E|(c & t & E & Hc)]; rewrite E.
  - exact I.
  - rewrite rstrip_cons_nonspace by assumption. exact Hc.
Qed.

Lemma lstrip_space_app (lead x : pystr) :
  Forall (fun c => isspace c = true) lead -> lstrip (lead ++ x) = lstrip x.
Proof.
  induction 1 as [|c lead Hc _ IH]; simpl; [reflexivity|].
  rewrite Hc. exact IH.
Qed.

Lemma lstrip_all_space (trail : pystr) :
  Forall (fun c => isspace c = true) trail -> lstrip trail = [].
Proof.
  induction 1 as [|c trail Hc _ IH]; simpl; [reflexivity|].
  rewrite Hc. exact IH.
Qed.

Lemma rstrip_all_space (trail : pystr) :
  Forall (fun c => isspace c = true) trail -> rstrip trail = [].
Proof.
  induction 1 as [|c trail Hc _ IH]; simpl; [reflexivity|].
  rewrite IH, Hc. reflexivity.
Qed.

Lemma rstrip_app_space (t trail : pystr) :
  Forall (fun c => isspace c = true) trail ->
  match last t with Some c => isspace c = false | None => True end ->
  rstrip (t ++ trail) = t.
Proof.
  intros F. induction t as [|c t IH]; intros Hl.
  - apply rstrip_all_space, F.
  - destruct t as [|e r].
    + simpl in *. rewrite (rstrip_all_space _ F), Hl. reflexivity.
    + change (last (c :: e :: r)) with (last (e :: r)) in Hl.
      specialize (IH Hl).
      change ((c :: e :: r) ++ trail) with (c :: ((e :: r) ++ trail)).
      cbn [rstrip]. rewrite IH. reflexivity.
Qed.

(** And [strip s] is the one text that is [s] without the white space at
    its ends. *)
Lemma stripped_strip (s t : pystr) : stripped s t -> t = strip s.
Proof.
  intros (lead & trail & -> & Fl & Ft & Hh & Hl). unfold strip.
  rewrite lstrip_space_app by assumption.
  destruct t as [|c t].
  - simpl. rewrite (lstrip_all_space _ Ft). reflexivity.
  - change ((c :: t) ++ trail) with (c :: (t ++ trail)).
    cbn [lstrip]. rewrite Hh.
    change (c :: (t ++ trail)) with ((c :: t) ++ trail).
    symmetry. apply rstrip_app_space; assumption.
Qed.

(** C8.  [get_review_feedback] takes its "APPROVED:" branch whenever
    "APPROVED:" occurs anywhere in [review_result], while [get_review_status]
    looks at the start of the text only.  In that branch the feedback is the
    text with every occurrence of "APPROVED:" taken out and then the white
    space at the two ends taken off.  So for a [review_result] that starts
    with "NEEDS_IMPROVEMENT:" and has "APPROVED:" further on, the status is
    "NEEDS_IMPROVEMENT" and the feedback is the whole text with the
    occurrences of "APPROVED:" removed and the white space at both ends
    stripped: it still starts with "NEEDS_IMPROVEMENT:" and it keeps every
    "|" of the text. *)
Theorem get_review_feedback_approved_inside_needs
    (f : BaseResearchFlow) (r t : pystr) :
  review_result_of f = Some r ->
  (contains (py "APPROVED:") r = true ->
   get_review_feedback f
   = Returns (Some (strip (replace r (py "APPROVED:") []))) /\
   exists out fb,
     without (py "APPROVED:") r out /\
     stripped out fb /\
     get_review_feedback f = Returns (Some fb)) /\
  (r = py "NEEDS_IMPROVEMENT:" ++ t ->
   contains (py "APPROVED:") t = true ->
   get_review_status f = Returns (Some (py "NEEDS_IMPROVEMENT")) /\
   get_review_feedback f
   = Returns (Some (strip (replace r (py "APPROVED:") []))) /\
   (exists u, strip (replace r (py "APPROVED:") [])
              = py "NEEDS_IMPROVEMENT:" ++ u) /\
   count 124 (strip (replace r (py "APPROVED:") [])) = count 124 r /\
   exists out fb,
     without (py "APPROVED:") r out /\
     stripped out fb /\
     get_review_feedback f = Returns (Some fb) /\
     startswith fb (py "NEEDS_IMPROVEMENT:") = true /\
     count 124 fb = count 124 r).
Proof.
  intros Hr.
  assert (Hbranch : contains (py "APPROVED:") r = true ->
            exists out fb,
              without (py "APPROVED:") r out /\
              stripped out fb /\
              get_review_feedback f = Returns (Some fb) /\
              fb = strip (replace r (py "APPROVED:") [])).
  { intros Hc.
    exists (replace r (py "APPROVED:") []),
           (strip (replace r (py "APPROVED:") [])).
    split; [apply replace_without; discriminate|].
    split; [apply strip_stripped|].
    split; [exact (get_review_feedback_approved_branch f r Hr Hc)|reflexivity]. }
  split.
  - intros Hc. split; [exact (get_review_feedback_approved_branch f r Hr Hc)|].
    destruct (Hbranch Hc) as (out & fb & H1 & H2 & H3 & _). eauto.
  - intros -> Ht.
    assert (Hc : contains (py "APPROVED:") (py "NEEDS_IMPROVEMENT:" ++ t) = true)
      by apply contains_app_r, Ht.
    assert (Hu : exists u, strip (replace (py "NEEDS_IMPROVEMENT:" ++ t)
                                    (py "APPROVED:") [])
                           = py "NEEDS_IMPROVEMENT:" ++ u).
    { rewrite replace_approved_after_needs, strip_needs_prefix. eauto. }
    assert (Hn : count 124 (strip (replace (py "NEEDS_IMPROVEMENT:" ++ t)
                                     (py "APPROVED:") []))
                 = count 124 (py "NEEDS_IMPROVEMENT:" ++ t)).
    { rewrite count_strip by reflexivity.
      apply count_replace_removed; [discriminate|reflexivity]. }
    split; [apply (get_review_status_needs f t Hr)|].
    split; [exact (get_review_feedback_approved_branch f _ Hr Hc)|].
    split; [exact Hu|]. split; [exact Hn|].
    destruct (Hbranch Hc) as (out & fb & H1 & H2 & H3 & ->).
    exists out, (strip (replace (py "NEEDS_IMPROVEMENT:" ++ t) (py "APPROVED:") [])).
    split; [exact H1|]. split; [exact H2|]. split; [exact H3|].
    split; [|exact Hn].
    destruct Hu as [u ->]. apply startswith_app.
Qed.

(** On "NEEDS_IMPROVEMENT: a APPROVED: b|c" the status is
    "NEEDS_IMPROVEMENT" and the feedback is "NEEDS_IMPROVEMENT: a  b|c". *)
Lemma get_review_feedback_approved_inside_needs_witness :
  let f := flow_reviewed (py "NEEDS_IMPROVEMENT: a APPROVED: b|c") in
  get_review_status f = Returns (Some (py "NEEDS_IMPROVEMENT")) /\
  get_review_feedback f = Returns (Some (py "NEEDS_IMPROVEMENT: a  b|c")).
Proof.
  intros f.
  destruct (proj2 (get_review_feedback_approved_inside_needs
                     f (py "NEEDS_IMPROVEMENT: a APPROVED: b|c")
                     (py " a APPROVED: b|c") eq_refl) eq_refl eq_refl)
    as (Hs & Hf & _).
  split; [exact Hs|]. rewrite Hf. reflexivity.
Defined.

(** ** Construction: the pipeline and the search tool *)

Lemma setup_agents_returns agent_init model_name ri ai rvi rfi tool
    (e0 e1 : Env) (a : Agents) :
  _setup_agents agent_init model_name ri ai rvi rfi tool e0 = (Returns a, e1) ->
  a = composed_agents model_name ri ai rvi rfi tool /\ e1 = e0.
Proof.
  unfold _setup_agents, bind, new_Agent, new_SequentialAgent, raise, ret.
  repeat match goal with
         | |- context [agent_init ?b] =>
             destruct (agent_init b); cbv beta iota zeta; [discriminate|]
         end.
  intros H. injection H as <- <-. split; reflexivity.
Qed.

Lemma setup_agents_ok agent_init model_name ri ai rvi rfi tool (e0 : Env) :
  (forall b, agent_init b = None) ->
  _setup_agents agent_init model_name ri ai rvi rfi tool e0
  = (Returns (composed_agents model_name ri ai rvi rfi tool), e0).
Proof.
  intros H.
  unfold _setup_agents, bind, new_Agent, new_SequentialAgent, raise, ret.
  repeat (rewrite H; cbv beta iota zeta). reflexivity.
Qed.

(** When a constructor of an agent raises, [_setup_agents] raises the same
    exception, and nothing is logged. *)
Lemma setup_agents_raises agent_init model_name ri ai rvi rfi tool
    (e0 e1 : Env) (e : exn) :
  _setup_agents agent_init model_name ri ai rvi rfi tool e0 = (Raises e, e1) ->
  e1 = e0 /\ exists b, agent_init b = Some e.
Proof.
  unfold _setup_agents, bind, new_Agent, new_SequentialAgent, raise, ret.
  repeat match goal with
         | |- context [agent_init ?b] =>
             destruct (agent_init b) as [x|] eqn:?; cbv beta iota zeta;
             [intros H; injection H as <- <-; split; [reflexivity|eauto]|]
         end.
  discriminate.
Qed.

(** C5.  Whenever [_setup_agents] returns, the workflow it has composed is
    the sequence of the sequence (research agent, answer agent) and the
    reviewer agent, and the refiner agent is built beside it.  A run of that
    workflow, whatever the model replies, is one run of the research agent,
    then one run of the answer agent on the state with the research data
    written, then one run of the reviewer agent on the state with the summary
    written, and it ends with the review written: no stage is skipped, the
    review runs exactly once, the research and the answer are not run again
    whatever the verdict is, and the refiner never runs. *)
Theorem workflow_is_research_answer_review
    (agent_init : BaseAgent -> option exn) (model_name : pystr)
    (researcher_instructions answer_instructions
     reviewer_instructions refiner_instructions : option pystr)
    (tavily_tool : LangchainTool) (e0 e1 : Env) (a : Agents) :
  _setup_agents agent_init model_name researcher_instructions
    answer_instructions reviewer_instructions refiner_instructions
    tavily_tool e0 = (Returns a, e1) ->
  agents_research a
  = Agent "ResearchAgent" model_name researcher_instructions [tavily_tool]
          "research_data" /\
  agents_answer a
  = Agent "AnswerAgent" model_name answer_instructions [] "answer_summary" /\
  agents_reviewer a
  = Agent "ReviewerAgent" model_name reviewer_instructions [] "review_result" /\
  agents_refiner a
  = Agent "RefinerAgent" model_name refiner_instructions []
          "refinement_action" /\
  agents_base_workflow a
  = SequentialAgent "BaseResearchWorkflow" [agents_research a; agents_answer a] /\
  agents_workflow a
  = SequentialAgent "IterativeResearchWorkflow"
      [agents_base_workflow a; agents_reviewer a] /\
  forall (model_reply : BaseAgent -> gmap string pystr -> pystr)
         (st : gmap string pystr),
    let r1 := model_reply (agents_research a) st in
    let st1 := <["research_data" := r1]> st in
    let r2 := model_reply (agents_answer a) st1 in
    let st2 := <["answer_summary" := r2]> st1 in
    let r3 := model_reply (agents_reviewer a) st2 in
    let runs := fst (run_agent model_reply (agents_workflow a) st) in
    runs = [mk_Invocation (agents_research a) st r1;
            mk_Invocation (agents_answer a) st1 r2;
            mk_Invocation (agents_reviewer a) st2 r3] /\
    snd (run_agent model_reply (agents_workflow a) st)
    = <["review_result" := r3]> st2 /\
    List.map (fun i => agent_name (invoked i)) runs
    = ["ResearchAgent"; "AnswerAgent"; "ReviewerAgent"] /\
    runs_of "ResearchAgent" runs = 1%nat /\
    runs_of "AnswerAgent" runs = 1%nat /\
    runs_of "ReviewerAgent" runs = 1%nat /\
    runs_of "RefinerAgent" runs = 0%nat.
Proof.
  intros H. apply setup_agents_returns in H as [-> _].
  do 6 (split; [reflexivity|]).
  intros model_reply st. cbv zeta. repeat split.
Qed.

(** A run in which the reviewer asks for improvement: the review is the third
    and last run. *)
Lemma workflow_is_research_answer_review_witness :
  List.map (fun i => (agent_name (invoked i), reply i))
    (fst (run_agent sample_model_reply (workflow_agent (sample_flow None None)) ∅))
  = [("ResearchAgent", py "Born on 2 September 1962 in Southwark.");
     ("AnswerAgent", py "Keir Starmer was born in 1962.");
     ("ReviewerAgent", py "NEEDS_IMPROVEMENT: missing dates|RESEARCH_NEEDED: dates")].
Proof.
  destruct (workflow_is_research_answer_review (fun _ => None)
              (py "gemini-1.5-flash-latest") sample_researcher sample_answer
              sample_reviewer sample_refiner
              (mk_LangchainTool (mk_Tavily 10 (py "advanced") false true false))
              (mk_Env [] []) (mk_Env [] [])
              (composed_agents (py "gemini-1.5-flash-latest") sample_researcher
                 sample_answer sample_reviewer sample_refiner
                 (mk_LangchainTool (mk_Tavily 10 (py "advanced") false true false)))
              eq_refl)
    as (_ & _ & _ & _ & _ & _ & Hrun).
  destruct (Hrun sample_model_reply ∅) as (Hruns & _).
  change (workflow_agent (sample_flow None None))
    with (agents_workflow
            (composed_agents (py "gemini-1.5-flash-latest") sample_researcher
               sample_answer sample_reviewer sample_refiner
               (mk_LangchainTool (mk_Tavily 10 (py "advanced") false true false)))).
  rewrite Hruns. reflexivity.
Defined.

(** C9, as the code has it.  [_setup_tools] builds the search tool with
    [max_results=10], [search_depth="advanced"], [include_answer=False],
    [include_raw_content=True], [include_images=False], and wraps it.  When
    neither constructor raises, the wrapped tool has exactly this
    configuration and nothing is logged.  When one raises [e], [_setup_tools]
    raises [e] again and so does the construction of the flow, which returns
    no object; [e] is logged as an error when its class derives from
    [Exception], and is not logged otherwise. *)
Theorem setup_tools_configuration
    (tavily_init langchain_init : TavilySearchResults -> option exn) (env : Env) :
  max_results tavily_kwargs = 10 /\
  search_depth tavily_kwargs = py "advanced" /\
  include_raw_content tavily_kwargs = true /\
  include_answer tavily_kwargs = false /\
  include_images tavily_kwargs = false /\
  match tool_setup_failure tavily_init langchain_init with
  | None =>
      _setup_tools tavily_init langchain_init env
      = (Returns (mk_LangchainTool tavily_kwargs), env)
  | Some e =>
      let env' :=
        if derives_Exception e
        then mk_Env (log env ++
                       [(ERROR, py "Failed to initialize Tavily search tool: "
                                ++ exn_str e)])
                    (stdout env)
        else env in
      _setup_tools tavily_init langchain_init env = (Raises e, env') /\
      forall agent_init uuid model_name ri rvi rfi ai app_name user_id,
        __init__ tavily_init langchain_init agent_init uuid model_name
                 ri rvi rfi ai app_name user_id env
        = (Raises e, env')
  end.
Proof.
  repeat (split; [reflexivity|]).
  unfold tool_setup_failure, __init__, _setup_tools, try_except_Exception, bind,
    new_TavilySearchResults, new_LangchainTool.
  fold tavily_kwargs.
  destruct (tavily_init tavily_kwargs) as [e|].
  - unfold raise. destruct (derives_Exception e) eqn:E; cbn; rewrite ?E;
      split; reflexivity.
  - unfold ret. destruct (langchain_init tavily_kwargs) as [e|].
    + unfold raise. destruct (derives_Exception e) eqn:E; cbn; rewrite ?E;
        split; reflexivity.
    + reflexivity.
Qed.

(** C9, as stated, fails: an exception whose class does not derive from
    [Exception] goes through [_setup_tools] without being logged. *)
Lemma setup_tools_interrupt_not_logged :
  _setup_tools (fun _ => Some KeyboardInterrupt) (fun _ => None) (mk_Env [] [])
  = (Raises KeyboardInterrupt, mk_Env [] []).
Proof. reflexivity. Qed.

(** ** The loop of [research_person] *)

Lemma async_for_nonstop c event rest w :
  stops event = false ->
  async_for (Yield c event rest) w
  = (commit_state c ;; observe event ;; async_for rest) w.
Proof.
  unfold stops. intros H. cbn [async_for].
  destruct (is_final_response event); [|reflexivity].
  destruct (content event) as [ct|]; [|reflexivity].
  destruct (parts ct) as [[|p ps]|]; try reflexivity. discriminate H.
Qed.

Lemma async_for_stop c event rest w :
  stops event = true ->
  async_for (Yield c event rest) w
  = (commit_state c ;; observe event ;;
     in_env (logger INFO (py "Iterative research workflow completed successfully")) ;;
     ret (final_text event)) w.
Proof.
  unfold stops, final_text. intros H. cbn [async_for].
  destruct (is_final_response event); [|discriminate H].
  destruct (content event) as [ct|]; [|discriminate H].
  destruct (parts ct) as [[|p ps]|]; try discriminate H. reflexivity.
Qed.

Lemma world_eta (w : World) (s : Session) :
  session (self w) = Some s ->
  mk_World (with_session (self w) (Some (with_state s (state s))))
           (env w) (run_async_calls w) (observed w ++ [])
  = w.
Proof.
  destruct w as [f e r o], f, s. simpl. intros ->.
  rewrite app_nil_r. reflexivity.
Qed.

(** Steps that do not stop the loop are all taken, and their state changes
    committed, one after the other. *)
Lemma async_for_yields (steps : list step) (tail : AsyncGenerator) :
  Forall (fun ce => stops (snd ce) = false) steps ->
  forall (w : World) (s : Session),
    session (self w) = Some s ->
    async_for (yields steps tail) w
    = async_for tail
        (mk_World
           (with_session (self w) (Some (with_state s (commits steps (state s)))))
           (env w) (run_async_calls w) (observed w ++ List.map snd steps)).
Proof.
  induction 1 as [|[c e] steps He _ IH]; intros w s Hs.
  - simpl. rewrite (world_eta w s Hs). reflexivity.
  - simpl in He. change (yields ((c, e) :: steps) tail)
      with (Yield c e (yields steps tail)).
    rewrite async_for_nonstop by exact He.
    unfold bind at 1. unfold commit_state at 1. rewrite Hs.
    unfold bind at 1. unfold observe at 1. cbn [self env run_async_calls observed].
    rewrite (IH (mk_World
                   (with_session (self w) (Some (with_state s (c (state s)))))
                   (env w) (run_async_calls w) (observed w ++ [e]))
                (with_state s (c (state s))) eq_refl).
    cbn [self env run_async_calls observed List.map snd].
    rewrite <- app_assoc. reflexivity.
Qed.

(** Every generator is a run of steps that do not stop the loop followed by
    a tail at which the loop is left. *)
Lemma generator_shape (g : AsyncGenerator) :
  exists steps tail,
    g = yields steps tail /\
    Forall (fun ce => stops (snd ce) = false) steps /\
    terminal tail = true.
Proof.
  induction g as [c e rest (steps & tail & -> & Hs & Ht)|c|c e].
  - destruct (stops e) eqn:E.
    + exists [], (Yield c e (yields steps tail)). repeat split; [constructor|exact E].
    + exists ((c, e) :: steps), tail. repeat split; [|exact Ht].
      constructor; [exact E|exact Hs].
  - exists [], (StopAsyncIteration c). repeat split. constructor.
  - exists [], (Throw c e). repeat split. constructor.
Qed.

(** What the [try] block of [research_person] does, for a flow with a session
    and a runner. *)
Lemma research_person_try_run (person_name : pystr) (w : World) (s : Session)
    (r : Runner) (steps : list step) (tail : AsyncGenerator) :
  session (self w) = Some s ->
  runner (self w) = Some r ->
  run_async r (user_id (self w)) (session_id (self w)) (user_message person_name)
  = yields steps tail ->
  Forall (fun ce => stops (snd ce) = false) steps ->
  terminal tail = true ->
  let w' := world_after_loop person_name w s steps tail in
  research_person_try person_name w
  = match tail with
    | Throw _ e => (Raises e, w')
    | StopAsyncIteration _ | Yield _ _ _ =>
        match resolve (tail_commit tail
                         (commits steps
                            (<["person_name" := strip person_name]> (state s)))
                       !! "answer_summary")
                      (tail_response tail) with
        | Some v => (Returns (Some v), w')
        | None =>
            (Returns None,
             logged WARNING
               (py "No final summary available after workflow completion") w')
        end
    end.
Proof.
  intros Hs Hr Hg Hsteps Htail w'.
  unfold research_person_try.
  unfold bind at 1. unfold session_state_setitem at 1. rewrite Hs.
  unfold bind at 1. unfold in_env at 1, logger at 1.
  cbn [self env run_async_calls observed log stdout].
  unfold bind at 1. unfold in_env at 1, print at 1.
  cbn [self env run_async_calls observed log stdout].
  unfold bind at 1. unfold runner_run_async at 1.
  cbn [self env run_async_calls observed log stdout session_id user_id runner
       with_session].
  rewrite Hr, Hg.
  unfold bind at 1.
  erewrite (async_for_yields steps tail Hsteps) by reflexivity.
  cbn [self env run_async_calls observed log stdout with_state state].
  destruct tail as [c e rest|c|c e].
  - simpl in Htail. rewrite async_for_stop by exact Htail.
    subst w'. unfold world_after_loop.
    cbn -[py strip app]. unfold resolve, tail_response, tail_commit.
    destruct (c (commits steps (<["person_name" := strip person_name]> (state s)))
              !! "answer_summary") as [[|a0 a]|];
      destruct (final_text e) as [[|t0 t]|]; cbn -[py strip app];
      unfold logged; cbn -[py strip app];
      rewrite <- ?app_assoc; reflexivity.
  - subst w'. unfold world_after_loop.
    cbn -[py strip app]. unfold resolve, tail_response, tail_commit.
    destruct (c (commits steps (<["person_name" := strip person_name]> (state s)))
              !! "answer_summary") as [[|a0 a]|]; cbn -[py strip app];
      unfold logged; cbn -[py strip app];
      rewrite <- ?app_assoc, ?app_nil_r; reflexivity.
  - subst w'. unfold world_after_loop.
    cbn -[py strip app]. rewrite <- ?app_assoc, ?app_nil_r. reflexivity.
Qed.

(** ** [research_person] *)

Lemma blank_false_truthy (person_name : pystr) :
  blank person_name = false ->
  truthy person_name = true /\ truthy (strip person_name) = true.
Proof.
  unfold blank. intros H. split.
  - destruct person_name; [discriminate H|reflexivity].
  - destruct (strip person_name) eqn:E; [|reflexivity].
    apply strip_nil in E. congruence.
Qed.

Lemma research_person_valid (person_name : pystr) :
  blank person_name = false ->
  research_person person_name
  = try_except_Exception (research_person_try person_name) research_person_except.
Proof.
  intros H. destruct (blank_false_truthy _ H) as [H1 H2].
  unfold research_person. rewrite H1, H2. reflexivity.
Qed.

(** C2.  For a name that is empty or white space only, [research_person]
    returns [None] and logs the error "Person name cannot be empty"; nothing
    else changes: the runner is not called, no event is taken, and the flow
    with the state of its session is as before. *)
Theorem research_person_blank_name (person_name : pystr) (w : World) :
  blank person_name = true ->
  research_person person_name w
  = (Returns None, logged ERROR (py "Person name cannot be empty") w) /\
  run_async_calls (snd (research_person person_name w)) = run_async_calls w /\
  observed (snd (research_person person_name w)) = observed w /\
  self (snd (research_person person_name w)) = self w /\
  log (env (snd (research_person person_name w)))
  = log (env w) ++ [(ERROR, py "Person name cannot be empty")].
Proof.
  intros H.
  assert (E : research_person person_name w
              = (Returns None, logged ERROR (py "Person name cannot be empty") w)).
  { unfold research_person. apply strip_nil in H. rewrite H.
    rewrite orb_true_r. reflexivity. }
  rewrite E. repeat split.
Qed.

Lemma research_person_blank_name_witness :
  research_person (py "   ") (sample_world ∅ (yields (scenario_steps id) scenario_tail))
  = (Returns None,
     logged ERROR (py "Person name cannot be empty")
       (sample_world ∅ (yields (scenario_steps id) scenario_tail))).
Proof.
  apply (research_person_blank_name (py "   ")). reflexivity.
Defined.

(** C1, as the code has it.  Take a name that is not blank, a flow with a
    session and a runner, and a run in which nothing raises: the runner makes
    steps that do not stop the loop and then ends or yields an event that
    stops it.  Then [research_person] returns, and its result is resolved in
    this order: the [answer_summary] of the session state after the run when
    it is there and not empty; else the text of the stopping event when there
    is one and it is not empty; else [None], and then the warning is the last
    record of the log. *)
Theorem research_person_resolution (person_name : pystr) (w : World)
    (s : Session) (r : Runner) (steps : list step) (tail : AsyncGenerator) :
  blank person_name = false ->
  session (self w) = Some s ->
  runner (self w) = Some r ->
  run_async r (user_id (self w)) (session_id (self w)) (user_message person_name)
  = yields steps tail ->
  Forall (fun ce => stops (snd ce) = false) steps ->
  terminal tail = true ->
  tail_exception tail = None ->
  exists (w' : World) (s' : Session),
    session (self w') = Some s' /\
    state s' = tail_commit tail
                 (commits steps (<["person_name" := strip person_name]> (state s))) /\
    research_person person_name w
    = (Returns (resolve (state s' !! "answer_summary") (tail_response tail)), w') /\
    (resolve (state s' !! "answer_summary") (tail_response tail) = None ->
     exists l,
       log (env w')
       = l ++ [(WARNING, py "No final summary available after workflow completion")]).
Proof.
  intros Hb Hs Hr Hg Hsteps Hterm Hexc.
  rewrite (research_person_valid _ Hb). unfold try_except_Exception.
  rewrite (research_person_try_run person_name w s r steps tail Hs Hr Hg Hsteps Hterm).
  set (st := tail_commit tail
               (commits steps (<["person_name" := strip person_name]> (state s)))).
  destruct (resolve (st !! "answer_summary") (tail_response tail)) as [v|] eqn:E.
  - exists (world_after_loop person_name w s steps tail), (with_state s st).
    cbn [with_state state]. rewrite E.
    destruct tail; try discriminate Hexc; repeat split; discriminate.
  - exists (logged WARNING
              (py "No final summary available after workflow completion")
              (world_after_loop person_name w s steps tail)), (with_state s st).
    cbn [with_state state]. rewrite E.
    destruct tail; try discriminate Hexc; repeat split; intros _; eexists;
      reflexivity.
Qed.

(** The scenario of the specification with no summary in the session: the
    text of the final event is returned. *)
Lemma research_person_resolution_witness :
  fst (research_person (py "Keir Starmer")
         (sample_world ∅ (yields (scenario_steps id) scenario_tail)))
  = Returns (Some (py "final bio text")).
Proof.
  assert (Hsteps : Forall (fun ce : step => stops (snd ce) = false)
                          (scenario_steps id)).
  { repeat constructor. }
  destruct (research_person_resolution (py "Keir Starmer")
              (sample_world ∅ (yields (scenario_steps id) scenario_tail))
              (sample_session ∅)
              (sample_runner (yields (scenario_steps id) scenario_tail))
              (scenario_steps id) scenario_tail
              eq_refl eq_refl eq_refl eq_refl Hsteps eq_refl eq_refl)
    as (w' & s' & _ & Hst & Hres & _).
  rewrite Hres, Hst. reflexivity.
Defined.

(** C1, as stated, fails: a summary that is in the session state but empty
    is not returned; the text of the final event is. *)
Lemma research_person_empty_summary_skipped :
  let w := sample_world ∅
             (yields (scenario_steps (<["answer_summary" := ([] : pystr)]>)) scenario_tail) in
  fst (research_person (py "Keir Starmer") w) = Returns (Some (py "final bio text")) /\
  (exists s', session (self (snd (research_person (py "Keir Starmer") w))) = Some s'
              /\ state s' !! "answer_summary" = Some []).
Proof.
  split; [reflexivity|]. eexists. split; reflexivity.
Qed.

(** The two scenarios of the specification: a summary in the session wins
    over the text of the final event, and a stream that ends without a final
    event, with no summary, gives [None] and the warning. *)
Example research_person_summary_returned :
  let c := <["answer_summary" := py "Keir Starmer was born in 1962."]> in
  fst (research_person (py "Keir Starmer")
         (sample_world ∅ (yields (scenario_steps c) scenario_tail)))
  = Returns (Some (py "Keir Starmer was born in 1962.")).
Proof. reflexivity. Qed.

Example research_person_no_final_event :
  let w := sample_world ∅ (yields (scenario_steps id) (StopAsyncIteration id)) in
  fst (research_person (py "Keir Starmer") w) = Returns None /\
  last (log (env (snd (research_person (py "Keir Starmer") w))))
  = Some (WARNING, py "No final summary available after workflow completion").
Proof. split; reflexivity. Qed.

(** C3, as the code has it.  Take a name that is not blank and a flow with a
    session and a runner whose generator makes steps that do not stop the
    loop and then a tail at which the loop is left.  The events
    [research_person] takes are those of the steps and, when the tail yields
    an event that stops the loop (one flagged as a final response whose
    content has at least one part), that event: nothing of the rest of the
    generator is taken, and the state changes of the rest are not committed.
    An event flagged as a final response without such a content does not stop
    the loop. *)
Theorem research_person_takes_events_up_to_stop (person_name : pystr) (w : World)
    (s : Session) (r : Runner) (steps : list step) (tail : AsyncGenerator) :
  blank person_name = false ->
  session (self w) = Some s ->
  runner (self w) = Some r ->
  run_async r (user_id (self w)) (session_id (self w)) (user_message person_name)
  = yields steps tail ->
  Forall (fun ce => stops (snd ce) = false) steps ->
  terminal tail = true ->
  let w' := snd (research_person person_name w) in
  observed w' = observed w ++ List.map snd steps ++ tail_events tail /\
  (forall c event rest,
     tail = Yield c event rest ->
     observed w' = observed w ++ List.map snd steps ++ [event]) /\
  session (self w')
  = Some (with_state s
            (tail_commit tail
               (commits steps (<["person_name" := strip person_name]> (state s))))).
Proof.
  intros Hb Hs Hr Hg Hsteps Hterm w'.
  assert (H : observed w' = observed w ++ List.map snd steps ++ tail_events tail /\
              session (self w')
              = Some (with_state s
                        (tail_commit tail
                           (commits steps
                              (<["person_name" := strip person_name]> (state s)))))).
  { subst w'. rewrite (research_person_valid _ Hb). unfold try_except_Exception.
    rewrite (research_person_try_run person_name w s r steps tail
               Hs Hr Hg Hsteps Hterm).
    destruct tail as [c e rest|c|c e].
    - destruct (resolve _ _); split; reflexivity.
    - destruct (resolve _ _); split; reflexivity.
    - destruct (derives_Exception e); split; reflexivity. }
  destruct H as [Ho Hsess]. split; [exact Ho|]. split; [|exact Hsess].
  intros c event rest ->. exact Ho.
Qed.

(** In the scenario of the specification, with one more event after the
    final one, the three first events are taken and the fourth is not. *)
Lemma research_person_takes_events_up_to_stop_witness :
  let late := Yield (<["answer_summary" := py "late"]>) (text_event false (py "D"))
                    (StopAsyncIteration id) in
  let g := yields (scenario_steps id)
                  (Yield id (text_event true (py "final bio text")) late) in
  observed (snd (research_person (py "Keir Starmer") (sample_world ∅ g)))
  = [text_event false (py "A"); text_event false (py "B");
     text_event true (py "final bio text")].
Proof.
  intros late g.
  assert (Hsteps : Forall (fun ce : step => stops (snd ce) = false)
                          (scenario_steps id)).
  { repeat constructor. }
  exact (proj1 (research_person_takes_events_up_to_stop (py "Keir Starmer")
                  (sample_world ∅ g) (sample_session ∅) (sample_runner g)
                  (scenario_steps id)
                  (Yield id (text_event true (py "final bio text")) late)
                  eq_refl eq_refl eq_refl eq_refl Hsteps eq_refl)).
Defined.

(** C3, as stated, fails: after an event flagged as a final response that has
    no content, the next event is still taken. *)
Lemma research_person_goes_on_after_empty_final :
  let g := Yield id (mk_Event true None)
             (Yield id (text_event false (py "B")) (StopAsyncIteration id)) in
  is_final_response (mk_Event true None) = true /\
  observed (snd (research_person (py "Keir Starmer") (sample_world ∅ g)))
  = [mk_Event true None; text_event false (py "B")].
Proof. split; reflexivity. Qed.

(** C4, as the code has it.  [research_person] never lets an exception whose
    class derives from [Exception] reach its caller.  When the [try] block
    raises such an exception, for a name that is not blank, the exception is
    logged as an error and [None] is returned; an exception of any other class
    goes on to the caller, and is not logged. *)
Theorem research_person_absorbs_Exception (person_name : pystr) (w : World) :
  (forall e w', research_person person_name w = (Raises e, w') ->
                derives_Exception e = false) /\
  (forall e w1,
     blank person_name = false ->
     research_person_try person_name w = (Raises e, w1) ->
     (derives_Exception e = true ->
      research_person person_name w
      = (Returns None,
         logged ERROR
           (py "Error during iterative research workflow: " ++ exn_str e) w1)) /\
     (derives_Exception e = false ->
      research_person person_name w = (Raises e, w1))).
Proof.
  split.
  - intros e w'. unfold research_person.
    destruct (negb (truthy person_name) || negb (truthy (strip person_name))).
    + discriminate.
    + unfold try_except_Exception.
      destruct (research_person_try person_name w) as [[v|e1] w1]; [discriminate|].
      destruct (derives_Exception e1) eqn:E; [discriminate|].
      intros H. injection H as <- _. exact E.
  - intros e w1 Hb Htry. rewrite (research_person_valid _ Hb).
    unfold try_except_Exception. rewrite Htry.
    split; intros ->; reflexivity.
Qed.

(** Called before [initialize_async], [research_person] meets an
    [AttributeError] on the missing session, logs it and returns [None]. *)
Lemma research_person_absorbs_Exception_witness :
  research_person (py "Keir Starmer") uninitialised_world
  = (Returns None,
     logged ERROR
       (py "Error during iterative research workflow: 'NoneType' object has no attribute 'state'")
       uninitialised_world).
Proof.
  exact (proj1 (proj2 (research_person_absorbs_Exception (py "Keir Starmer")
                         uninitialised_world)
                 (AttributeError (py "'NoneType' object has no attribute 'state'"))
                 uninitialised_world eq_refl eq_refl) eq_refl).
Defined.

(** C4, as stated, fails: a cancellation raised by the event stream goes
    through [research_person] to its caller. *)
Lemma research_person_propagates_cancellation :
  let g := Yield id (text_event false (py "A")) (Throw id CancelledError) in
  fst (research_person (py "Keir Starmer") (sample_world ∅ g))
  = Raises CancelledError.
Proof. reflexivity. Qed.

(** An exception of the event stream whose class derives from [Exception] is
    absorbed. *)
Example research_person_absorbs_stream_error :
  let g := Yield id (text_event false (py "A"))
                 (Throw id (mk_exn "RuntimeError" true (py "quota exceeded"))) in
  fst (research_person (py "Keir Starmer") (sample_world ∅ g)) = Returns None /\
  last (log (env (snd (research_person (py "Keir Starmer") (sample_world ∅ g)))))
  = Some (ERROR, py "Error during iterative research workflow: quota exceeded").
Proof. split; reflexivity. Qed.

(** ** [get_biographies] *)

Section BiographiesFacts.

Variable lower_nonascii : pystr -> N -> pystr -> pystr.

(** The lowercase of a code point outside ASCII has no ASCII capital
    letter in it. *)
Hypothesis lower_nonascii_no_upper :
  forall before c after u,
    128 <= c -> u ∈ lower_nonascii before c after -> ~ ascii_upper u.

Lemma ascii_lower_no_upper c : ~ ascii_upper (ascii_lower c).
Proof.
  unfold ascii_upper, ascii_lower.
  destruct ((65 <=? c) && (c <=? 90)) eqn:E.
  - apply andb_true_iff in E as [E1 E2].
    apply N.leb_le in E1, E2. lia.
  - apply andb_false_iff in E as [E|E];
      [apply N.leb_gt in E|apply N.leb_gt in E]; lia.
Qed.

Lemma lower_from_no_upper (s before : pystr) (u : N) :
  u ∈ lower_from lower_nonascii before s -> ~ ascii_upper u.
Proof.
  revert before. induction s as [|c s IH]; intros before H.
  - apply elem_of_nil in H. contradiction.
  - cbn [lower_from] in H. apply elem_of_app in H as [H|H].
    + destruct (c <? 128) eqn:E.
      * apply list_elem_of_singleton in H. subst u. apply ascii_lower_no_upper.
      * apply N.ltb_ge in E.
        exact (lower_nonascii_no_upper before c s u E H).
    + exact (IH _ H).
Qed.

(** A lower-cased text has no ASCII capital letter in it. *)
Lemma lower_no_upper (s : pystr) (u : N) :
  u ∈ lower lower_nonascii s -> ~ ascii_upper u.
Proof. apply lower_from_no_upper. Qed.

Lemma lower_not_Pedro_Sanchez (name : pystr) :
  lower lower_nonascii name <> py "Pedro Sanchez".
Proof.
  intros E. apply (lower_no_upper name 80).
  - rewrite E. apply elem_of_cons. left. reflexivity.
  - unfold ascii_upper. lia.
Qed.

End BiographiesFacts.

(** C10.  Provided that the lowercase of a code point outside ASCII never
    has an ASCII capital letter in it (as in the Unicode character database),
    for every name the lower-cased name has no "P" and no "S" in it, the
    comparison [name.lower() == "Pedro Sanchez"] is false, and
    [get_biographies] returns the dictionary with the status "error" and its
    message, never the one with the status "success".  And the tools of
    [root_agent] name [get_from_different_sources], which the module does
    not define. *)
Theorem get_biographies_never_succeeds
    (lower_nonascii : pystr -> N -> pystr -> pystr) (name : pystr) :
  (forall before c after u,
     128 <= c -> u ∈ lower_nonascii before c after -> ~ ascii_upper u) ->
  (80 ∉ lower lower_nonascii name) /\
  (83 ∉ lower lower_nonascii name) /\
  str_eq (lower lower_nonascii name) (py "Pedro Sanchez") = false /\
  get_biographies lower_nonascii name
  = {[ "status" := py "error";
       "error_message" :=
         py " The is no information available for '" ++ name ++ py "'" ]} /\
  get_biographies lower_nonascii name !! "status" = Some (py "error") /\
  ("get_from_different_sources" ∈ root_agent_tools) /\
  ("get_from_different_sources" ∉ module_names) /\
  undefined_names root_agent_tools = ["get_from_different_sources"].
Proof.
  intros Hlow.
  assert (Hne : str_eq (lower lower_nonascii name) (py "Pedro Sanchez") = false).
  { unfold str_eq. apply bool_decide_eq_false.
    apply lower_not_Pedro_Sanchez, Hlow. }
  split; [|split; [|split; [exact Hne|]]].
  - intros H. apply (lower_no_upper _ Hlow name 80 H). unfold ascii_upper. lia.
  - intros H. apply (lower_no_upper _ Hlow name 83 H). unfold ascii_upper. lia.
  - unfold get_biographies. rewrite Hne.
    split; [reflexivity|]. split; [reflexivity|].
    split; [|split; [|reflexivity]].
    + unfold root_agent_tools. apply elem_of_cons. right.
      apply elem_of_cons. left. reflexivity.
    + unfold module_names. intros H.
      repeat (apply elem_of_cons in H as [H|H]; [discriminate H|]).
      apply elem_of_nil in H. exact H.
Qed.

Lemma sample_lower_nonascii_no_upper (before : pystr) (c : N) (after : pystr)
    (u : N) :
  128 <= c -> u ∈ sample_lower_nonascii before c after -> ~ ascii_upper u.
Proof.
  unfold sample_lower_nonascii, ascii_upper. intros Hc H.
  destruct (c =? 304).
  { apply elem_of_cons in H as [->|H]; [lia|].
    apply list_elem_of_singleton in H. subst u. lia. }
  destruct (c =? 8490).
  { apply list_elem_of_singleton in H. subst u. lia. }
  destruct (c =? 931).
  { destruct before, after; apply list_elem_of_singleton in H; subst u; lia. }
  destruct ((192 <=? c) && (c <=? 222) && negb (c =? 215));
    apply list_elem_of_singleton in H; subst u; lia.
Defined.

(** With the sample of the lowercase mapping, the name "Pedro Sanchez"
    itself gets the error status. *)
Lemma get_biographies_never_succeeds_witness :
  get_biographies sample_lower_nonascii (py "Pedro Sanchez") !! "status"
  = Some (py "error").
Proof.
  exact (proj1 (proj2 (proj2 (proj2 (proj2
           (get_biographies_never_succeeds sample_lower_nonascii
              (py "Pedro Sanchez") sample_lower_nonascii_no_upper)))))).
Defined.

Example lower_example :
  lower sample_lower_nonascii (py "Pedro Sanchez") = py "pedro sanchez".
Proof. reflexivity. Qed.

(** * Further properties *)

(** ** White space *)

Lemma rstrip_idempotent (s : pystr) : rstrip (rstrip s) = rstrip s.
Proof.
  induction s as [|d s IH]; [reflexivity|].
  cbn [rstrip]. destruct (rstrip s) as [|e r] eqn:E.
  - destruct (isspace d) eqn:Ed; [reflexivity|].
    cbn [rstrip]. rewrite Ed. reflexivity.
  - change (rstrip (d :: e :: r))
      with (match rstrip (e :: r) with
            | [] => if isspace d then [] else [d]
            | x :: r' => d :: x :: r'
            end).
    rewrite IH. reflexivity.
Qed.

(** Stripping a stripped text changes nothing. *)
Lemma strip_idempotent (s : pystr) : strip (strip s) = strip s.
Proof.
  unfold strip.
  destruct (lstrip_all_space_or_head s) as [E|(c & t & E & Hc)].
  - rewrite E. reflexivity.
  - rewrite E. rewrite rstrip_cons_nonspace by exact Hc.
    cbn [lstrip]. rewrite Hc.
    rewrite rstrip_cons_nonspace by exact Hc.
    rewrite rstrip_idempotent. reflexivity.
Qed.

(** ** The review accessors, together *)

Lemma Returns_Some_inj {A} (a b : A) : Returns (Some a) = Returns (Some b) -> a = b.
Proof. intros H. injection H as H. exact H. Qed.

(** X1.  Whenever [get_review_status] gives a verdict, [get_review_feedback]
    gives a text (which may be empty), never [None]. *)
Theorem review_status_has_feedback (f : BaseResearchFlow) (v : pystr) :
  get_review_status f = Returns (Some v) ->
  exists t, get_review_feedback f = Returns (Some t).
Proof.
  unfold get_review_status. fold (review_result_of f).
  destruct (review_result_of f) as [r|] eqn:Hr; [|discriminate].
  destruct (truthy r); [|discriminate].
  destruct (contains (py "APPROVED:") r) eqn:Ea.
  - intros _. eexists. apply get_review_feedback_approved_branch; eassumption.
  - destruct (startswith r (py "APPROVED:")) eqn:Es.
    + apply contains_head in Es. congruence.
    + destruct (startswith r (py "NEEDS_IMPROVEMENT:")) eqn:En; [|discriminate].
      intros _. apply contains_head in En.
      destruct (split r (py "|")) as [|p0 more] eqn:Esp.
      * exfalso. exact (split_from_nonempty _ _ _ _ Esp).
      * eexists. eapply get_review_feedback_needs_branch; eassumption.
Qed.

Lemma review_status_has_feedback_witness :
  exists t,
    get_review_feedback (flow_reviewed (py "APPROVED: solid summary"))
    = Returns (Some t).
Proof.
  apply (review_status_has_feedback
           (flow_reviewed (py "APPROVED: solid summary")) (py "APPROVED")).
  reflexivity.
Defined.

(** The converse fails: a marker that is not at the start gives feedback and
    no verdict. *)
Example feedback_without_status :
  let f := flow_reviewed (py "Verdict: APPROVED: fine") in
  get_review_status f = Returns None /\
  get_review_feedback f = Returns (Some (py "Verdict:  fine")).
Proof. split; reflexivity. Qed.

(** X2.  [get_review_feedback] returns [None] exactly when there is no
    [review_result] to read (no session, no field) or the text has neither
    "APPROVED:" nor "NEEDS_IMPROVEMENT:" in it; in every other case it
    returns a text.  It never raises. *)
Theorem get_review_feedback_none_iff (f : BaseResearchFlow) :
  (exists v, get_review_feedback f = Returns v) /\
  (get_review_feedback f = Returns None <->
   match review_result_of f with
   | None => True
   | Some r =>
       contains (py "APPROVED:") r = false /\
       contains (py "NEEDS_IMPROVEMENT:") r = false
   end).
Proof.
  split; [apply get_review_feedback_returns|].
  destruct (review_result_of f) as [r|] eqn:Hr.
  - destruct (contains (py "APPROVED:") r) eqn:Ea.
    + rewrite (get_review_feedback_approved_branch f r Hr Ea).
      split; [discriminate|]. intros [H _]. discriminate H.
    + destruct (contains (py "NEEDS_IMPROVEMENT:") r) eqn:En.
      * destruct (split r (py "|")) as [|p0 more] eqn:Esp.
        { exfalso. exact (split_from_nonempty _ _ _ _ Esp). }
        rewrite (get_review_feedback_needs_branch f r p0 more Hr Ea En Esp).
        split; [discriminate|]. intros [_ H]. discriminate H.
      * assert (E : get_review_feedback f = Returns None).
        { unfold get_review_feedback. fold (review_result_of f).
          rewrite Hr, Ea, En. destruct (truthy r); reflexivity. }
        rewrite E. split; auto.
  - assert (E : get_review_feedback f = Returns None).
    { unfold get_review_feedback. fold (review_result_of f).
      rewrite Hr. reflexivity. }
    rewrite E. split; auto.
Qed.

(** X3.  The text [get_review_feedback] returns has no white space at
    either end (stripping it again changes nothing), and when "APPROVED:"
    does not occur in [review_result] it has no "|" in it. *)
Theorem get_review_feedback_shape (f : BaseResearchFlow) (t : pystr) :
  get_review_feedback f = Returns (Some t) ->
  strip t = t /\
  (forall r, review_result_of f = Some r ->
             contains (py "APPROVED:") r = false -> count 124 t = O).
Proof.
  intros H.
  destruct (review_result_of f) as [r|] eqn:Hr.
  - destruct (contains (py "APPROVED:") r) eqn:Ea.
    + rewrite (get_review_feedback_approved_branch f r Hr Ea) in H.
      apply Returns_Some_inj in H. subst t.
      split; [apply strip_idempotent|]. intros r' Hr' Ea'.
      apply (inj Some) in Hr'. subst r'. congruence.
    + destruct (contains (py "NEEDS_IMPROVEMENT:") r) eqn:En.
      * destruct (split_from_decompose 124 r [])
          as (before & more & Hsp & Hc & _).
        rewrite (get_review_feedback_needs_branch f r before more Hr Ea En Hsp)
          in H.
        apply Returns_Some_inj in H. subst t.
        split; [apply strip_idempotent|]. intros _ _ _.
        rewrite count_strip by reflexivity.
        rewrite count_replace_removed; [exact Hc|discriminate|reflexivity].
      * exfalso. revert H. unfold get_review_feedback.
        fold (review_result_of f). rewrite Hr, Ea, En.
        destruct (truthy r); discriminate.
  - exfalso. revert H. unfold get_review_feedback.
    fold (review_result_of f). rewrite Hr. discriminate.
Qed.

Lemma get_review_feedback_shape_witness :
  strip (py "missing dates") = py "missing dates" /\
  count 124 (py "missing dates") = O.
Proof.
  destruct (get_review_feedback_shape
              (flow_reviewed
                 (py "NEEDS_IMPROVEMENT: missing dates|RESEARCH_NEEDED: dates"))
              (py "missing dates") eq_refl) as [H1 H2].
  split; [exact H1|]. exact (H2 _ eq_refl eq_refl).
Defined.

(** ** [research_person]: what a call leaves behind *)

(** The whole outcome of a call on a flow with a session and a runner. *)
Lemma research_person_run (person_name : pystr) (w : World) (s : Session)
    (r : Runner) (steps : list step) (tail : AsyncGenerator) :
  blank person_name = false ->
  session (self w) = Some s ->
  runner (self w) = Some r ->
  run_async r (user_id (self w)) (session_id (self w)) (user_message person_name)
  = yields steps tail ->
  Forall (fun ce => stops (snd ce) = false) steps ->
  terminal tail = true ->
  let w' := world_after_loop person_name w s steps tail in
  research_person person_name w
  = match tail with
    | Throw _ e =>
        if derives_Exception e
        then (Returns None,
              logged ERROR
                (py "Error during iterative research workflow: " ++ exn_str e) w')
        else (Raises e, w')
    | StopAsyncIteration _ | Yield _ _ _ =>
        match resolve (tail_commit tail
                         (commits steps
                            (<["person_name" := strip person_name]> (state s)))
                       !! "answer_summary")
                      (tail_response tail) with
        | Some v => (Returns (Some v), w')
        | None =>
            (Returns None,
             logged WARNING
               (py "No final summary available after workflow completion") w')
        end
    end.
Proof.
  intros Hb Hs Hr Hg Hsteps Hterm w'.
  rewrite (research_person_valid _ Hb). unfold try_except_Exception.
  rewrite (research_person_try_run person_name w s r steps tail
             Hs Hr Hg Hsteps Hterm).
  fold w'. destruct tail as [c e rest|c|c e].
  - destruct (resolve _ _); reflexivity.
  - destruct (resolve _ _); reflexivity.
  - destruct (derives_Exception e); reflexivity.
Qed.

Lemma keeps_yields (key : string) (steps : list step) (tail : AsyncGenerator) :
  keeps key (yields steps tail) ->
  (forall st, commits steps st !! key = st !! key) /\ keeps key tail.
Proof.
  induction steps as [|[c e] steps IH]; simpl.
  - intros H. split; [reflexivity|exact H].
  - intros [Hc Hrest]. destruct (IH Hrest) as [IH1 IH2].
    split; [|exact IH2]. intros st. rewrite IH1. apply Hc.
Qed.

Lemma keeps_tail_commit (key : string) (tail : AsyncGenerator) :
  keeps key tail -> forall st, tail_commit tail st !! key = st !! key.
Proof. destruct tail; simpl; [intros [H _]; exact H|auto|auto]. Qed.

Lemma research_person_call_recorded (person_name : pystr) (w : World)
    (s : Session) (r : Runner) :
  blank person_name = false ->
  session (self w) = Some s ->
  runner (self w) = Some r ->
  run_async_calls (snd (research_person person_name w))
  = run_async_calls w
    ++ [(user_id (self w), session_id (self w), user_message person_name)].
Proof.
  intros Hb Hs Hr.
  destruct (generator_shape
              (run_async r (user_id (self w)) (session_id (self w))
                         (user_message person_name)))
    as (steps & tail & Hg & Hsteps & Hterm).
  rewrite (research_person_run person_name w s r steps tail
             Hb Hs Hr Hg Hsteps Hterm).
  destruct tail as [c e rest|c|c e].
  - destruct (resolve _ _); reflexivity.
  - destruct (resolve _ _); reflexivity.
  - destruct (derives_Exception e); reflexivity.
Qed.

(** X4.  On a flow with a session and a runner, a call with a name that is
    not blank and that the standard output can encode (the name is printed
    before the runner is called) calls [run_async] exactly once, whatever the
    runner then does: with the user id and the session id of the flow, and a
    message of role "user" whose single part is the request followed by the
    name as it was given (not stripped). *)
Theorem research_person_calls_runner_once (person_name : pystr) (w : World)
    (s : Session) (r : Runner) :
  blank person_name = false ->
  encodable person_name = true ->
  session (self w) = Some s ->
  runner (self w) = Some r ->
  run_async_calls (snd (research_person person_name w))
  = run_async_calls w
    ++ [(user_id (self w), session_id (self w),
         mk_Content (Some (py "user"))
           (Some [mk_Part
                    (Some (py "Research and create an early life biography section summary for "
                           ++ person_name))]))].
Proof.
  intros Hb _ Hs Hr.
  exact (research_person_call_recorded person_name w s r Hb Hs Hr).
Qed.

Lemma research_person_calls_runner_once_witness :
  run_async_calls
    (snd (research_person (py " Keir Starmer ")
            (sample_world ∅ (yields (scenario_steps id) scenario_tail))))
  = [(Some (py "test_user_id"), py "6f1c2d9e-0000-4000-8000-000000000001",
      mk_Content (Some (py "user"))
        (Some [mk_Part
                 (Some (py "Research and create an early life biography section summary for  Keir Starmer "))]))].
Proof.
  exact (research_person_calls_runner_once (py " Keir Starmer ")
           (sample_world ∅ (yields (scenario_steps id) scenario_tail))
           (sample_session ∅)
           (sample_runner (yields (scenario_steps id) scenario_tail))
           eq_refl eq_refl eq_refl eq_refl).
Defined.

(** X5.  When no state change of the run touches the field [person_name],
    the session holds after the call the name stripped of white space: a text
    that is not empty and that stripping leaves as it is.  This holds however
    the run ends, also when it raises. *)
Theorem research_person_stores_stripped_name (person_name : pystr) (w : World)
    (s : Session) (r : Runner) :
  blank person_name = false ->
  session (self w) = Some s ->
  runner (self w) = Some r ->
  keeps "person_name"
        (run_async r (user_id (self w)) (session_id (self w))
                   (user_message person_name)) ->
  exists s',
    session (self (snd (research_person person_name w))) = Some s' /\
    state s' !! "person_name" = Some (strip person_name) /\
    strip person_name <> [] /\
    strip (strip person_name) = strip person_name.
Proof.
  intros Hb Hs Hr Hk.
  destruct (generator_shape
              (run_async r (user_id (self w)) (session_id (self w))
                         (user_message person_name)))
    as (steps & tail & Hg & Hsteps & Hterm).
  rewrite Hg in Hk. destruct (keeps_yields _ _ _ Hk) as [Hc Ht].
  exists (with_state s
            (tail_commit tail
               (commits steps (<["person_name" := strip person_name]> (state s))))).
  split; [|split; [|split]].
  - rewrite (research_person_run person_name w s r steps tail
               Hb Hs Hr Hg Hsteps Hterm).
    destruct tail as [c e rest|c|c e].
    + destruct (resolve _ _); reflexivity.
    + destruct (resolve _ _); reflexivity.
    + destruct (derives_Exception e); reflexivity.
  - cbn [with_state state].
    rewrite (keeps_tail_commit _ _ Ht), Hc. apply lookup_insert_eq.
  - intros E. apply strip_nil in E. unfold blank in Hb. congruence.
  - apply strip_idempotent.
Qed.

Lemma research_person_stores_stripped_name_witness :
  exists s',
    session (self (snd (research_person (py " Keir Starmer ")
                          (sample_world ∅ (yields (scenario_steps id) scenario_tail)))))
    = Some s' /\
    state s' !! "person_name" = Some (py "Keir Starmer").
Proof.
  destruct (research_person_stores_stripped_name (py " Keir Starmer ")
              (sample_world ∅ (yields (scenario_steps id) scenario_tail))
              (sample_session ∅)
              (sample_runner (yields (scenario_steps id) scenario_tail))
              eq_refl eq_refl eq_refl)
    as (s' & H1 & H2 & _).
  - cbn. repeat split.
  - exists s'. split; [exact H1|exact H2].
Defined.

(** X6.  [research_person] does not clear the summary of an earlier run.
    When the session already holds a summary that is not empty and no state
    change of the run touches [answer_summary], a run in which nothing raises
    returns that earlier summary, whatever the final response of the run
    is. *)
Theorem research_person_returns_earlier_summary (person_name : pystr)
    (w : World) (s : Session) (r : Runner) (steps : list step)
    (tail : AsyncGenerator) (a : pystr) :
  blank person_name = false ->
  session (self w) = Some s ->
  runner (self w) = Some r ->
  run_async r (user_id (self w)) (session_id (self w)) (user_message person_name)
  = yields steps tail ->
  Forall (fun ce => stops (snd ce) = false) steps ->
  terminal tail = true ->
  tail_exception tail = None ->
  keeps "answer_summary" (yields steps tail) ->
  state s !! "answer_summary" = Some a ->
  a <> [] ->
  fst (research_person person_name w) = Returns (Some a).
Proof.
  intros Hb Hs Hr Hg Hsteps Hterm Hexc Hk Ha Hne.
  destruct (keeps_yields _ _ _ Hk) as [Hc Ht].
  rewrite (research_person_run person_name w s r steps tail
             Hb Hs Hr Hg Hsteps Hterm).
  assert (E : tail_commit tail
                (commits steps (<["person_name" := strip person_name]> (state s)))
              !! "answer_summary" = Some a).
  { rewrite (keeps_tail_commit _ _ Ht), Hc.
    rewrite lookup_insert_ne by discriminate. exact Ha. }
  destruct tail as [c e rest|c|c e]; try discriminate Hexc;
    rewrite E; destruct a; try congruence; reflexivity.
Qed.

Lemma research_person_returns_earlier_summary_witness :
  fst (research_person (py "Rishi Sunak")
         (sample_world {[ "answer_summary" := py "Keir Starmer was born in 1962." ]}
            (yields (scenario_steps id) scenario_tail)))
  = Returns (Some (py "Keir Starmer was born in 1962.")).
Proof.
  assert (Hsteps : Forall (fun ce : step => stops (snd ce) = false)
                          (scenario_steps id)).
  { repeat constructor. }
  apply (research_person_returns_earlier_summary (py "Rishi Sunak")
           (sample_world {[ "answer_summary" := py "Keir Starmer was born in 1962." ]}
              (yields (scenario_steps id) scenario_tail))
           (sample_session {[ "answer_summary" := py "Keir Starmer was born in 1962." ]})
           (sample_runner (yields (scenario_steps id) scenario_tail))
           (scenario_steps id) scenario_tail
           (py "Keir Starmer was born in 1962.")
           eq_refl eq_refl eq_refl eq_refl Hsteps eq_refl eq_refl).
  - cbn. repeat split.
  - reflexivity.
  - discriminate.
Defined.

(** X7.  On a flow that has a session and no runner, a call with a name
    that is not blank and that the standard output can encode returns [None]
    and logs the [AttributeError] as an error, after it has written the
    stripped name to the state of the session: the write is not undone, and
    no call of the runner is recorded. *)
Theorem research_person_without_runner (person_name : pystr) (w : World)
    (s : Session) :
  blank person_name = false ->
  encodable person_name = true ->
  session (self w) = Some s ->
  runner (self w) = None ->
  let w' := snd (research_person person_name w) in
  fst (research_person person_name w) = Returns None /\
  session (self w')
  = Some (with_state s (<["person_name" := strip person_name]> (state s))) /\
  run_async_calls w' = run_async_calls w /\
  observed w' = observed w /\
  log (env w')
  = log (env w)
    ++ [(INFO, py "Starting iterative research workflow for: " ++ person_name);
        (ERROR, py "Error during iterative research workflow: 'NoneType' object has no attribute 'run_async'")].
Proof.
  intros Hb _ Hs Hr w'. subst w'.
  assert (E : research_person person_name w
              = (Returns None,
                 mk_World
                   (with_session (self w)
                      (Some (with_state s
                               (<["person_name" := strip person_name]> (state s)))))
                   (mk_Env
                      (log (env w)
                       ++ [(INFO, py "Starting iterative research workflow for: "
                                  ++ person_name);
                           (ERROR, py "Error during iterative research workflow: 'NoneType' object has no attribute 'run_async'")])
                      (stdout (env w)
                       ++ [[128269]
                           ++ py " Starting comprehensive research and review workflow for "
                           ++ person_name ++ py "..."]))
                   (run_async_calls w) (observed w))).
  { rewrite (research_person_valid _ Hb).
    unfold try_except_Exception, research_person_try.
    unfold bind at 1. unfold session_state_setitem at 1. rewrite Hs.
    unfold bind at 1. unfold in_env at 1, logger at 1.
    cbn [self env run_async_calls observed log stdout].
    unfold bind at 1. unfold in_env at 1, print at 1.
    cbn [self env run_async_calls observed log stdout].
    unfold bind at 1. unfold runner_run_async at 1.
    cbn [self env run_async_calls observed log stdout session_id user_id runner
         with_session].
    rewrite Hr. cbn -[py strip app]. rewrite <- ?app_assoc. reflexivity. }
  rewrite E. repeat split.
Qed.

Lemma research_person_without_runner_witness :
  fst (research_person (py "Keir Starmer") (runnerless_world ∅)) = Returns None.
Proof.
  exact (proj1 (research_person_without_runner (py "Keir Starmer")
                  (runnerless_world ∅) (sample_session ∅)
                  eq_refl eq_refl eq_refl eq_refl)).
Defined.

(** ** Construction and initialisation *)

Lemma research_person_without_session (person_name : pystr) (w : World) :
  blank person_name = false ->
  session (self w) = None ->
  research_person person_name w
  = (Returns None,
     logged ERROR
       (py "Error during iterative research workflow: 'NoneType' object has no attribute 'state'")
       w).
Proof.
  intros Hb Hs. rewrite (research_person_valid _ Hb).
  unfold try_except_Exception, research_person_try.
  unfold bind at 1. unfold session_state_setitem at 1. rewrite Hs.
  reflexivity.
Qed.

(** The two outcomes of [_setup_tools]. *)
Lemma setup_tools_cases
    (tavily_init langchain_init : TavilySearchResults -> option exn) (e0 : Env) :
  _setup_tools tavily_init langchain_init e0
  = match tool_setup_failure tavily_init langchain_init with
    | None => (Returns (mk_LangchainTool tavily_kwargs), e0)
    | Some e =>
        (Raises e,
         if derives_Exception e
         then mk_Env (log e0 ++
                        [(ERROR, py "Failed to initialize Tavily search tool: "
                                 ++ exn_str e)])
                     (stdout e0)
         else e0)
    end.
Proof.
  unfold tool_setup_failure, _setup_tools, try_except_Exception, bind,
    new_TavilySearchResults, new_LangchainTool.
  fold tavily_kwargs.
  destruct (tavily_init tavily_kwargs) as [e|].
  - unfold raise. destruct (derives_Exception e) eqn:E; cbn; rewrite ?E;
      reflexivity.
  - unfold ret. destruct (langchain_init tavily_kwargs) as [e|].
    + unfold raise. destruct (derives_Exception e) eqn:E; cbn; rewrite ?E;
        reflexivity.
    + reflexivity.
Qed.

Lemma init_fields tavily_init langchain_init agent_init uuid model ri rvi rfi ai
    app user e0 f e1 :
  __init__ tavily_init langchain_init agent_init uuid model ri rvi rfi ai
           app user e0
  = (Returns f, e1) ->
  session f = None /\ runner f = None /\ session_id f = uuid /\
  user_id f = user /\ app_name f = app /\
  workflow_agent f
  = agents_workflow
      (composed_agents model ri ai rvi rfi (mk_LangchainTool tavily_kwargs)) /\
  e1 = e0.
Proof.
  unfold __init__. unfold bind at 1. rewrite setup_tools_cases.
  destruct (tool_setup_failure tavily_init langchain_init) as [e|].
  - discriminate.
  - unfold bind at 1.
    destruct (_setup_agents agent_init model ri ai rvi rfi
                (mk_LangchainTool tavily_kwargs) e0) as [[a|e] e2] eqn:Ha.
    + apply setup_agents_returns in Ha as [-> ->].
      unfold ret. intros H. injection H as <- <-. repeat split.
    + discriminate.
Qed.

(** X8.  A flow that was constructed and not yet initialised has no session:
    the three accessors return [None] on it, and [research_person], for a
    name that is not blank, returns [None] after logging the
    [AttributeError] it met, without calling any runner.  Construction
    itself logs nothing when it succeeds, that is when no constructor of a
    tool or of an agent raises. *)
Theorem constructed_flow_is_null_safe tavily_init langchain_init agent_init
    uuid model ri rvi rfi ai app user env f env' (person_name : pystr) :
  __init__ tavily_init langchain_init agent_init uuid model ri rvi rfi ai
           app user env
  = (Returns f, env') ->
  blank person_name = false ->
  env' = env /\
  get_research_data f = Returns None /\
  get_review_status f = Returns None /\
  get_review_feedback f = Returns None /\
  research_person person_name (mk_World f env' [] [])
  = (Returns None,
     logged ERROR
       (py "Error during iterative research workflow: 'NoneType' object has no attribute 'state'")
       (mk_World f env' [] [])).
Proof.
  intros Hinit Hb.
  destruct (init_fields _ _ _ _ _ _ _ _ _ _ _ _ _ _ Hinit)
    as (Hs & _ & _ & _ & _ & _ & He).
  split; [exact He|].
  unfold get_research_data, get_review_status, get_review_feedback.
  rewrite Hs. repeat (split; [reflexivity|]).
  apply research_person_without_session; [exact Hb|exact Hs].
Qed.

Lemma constructed_flow_is_null_safe_witness :
  get_review_status (sample_flow None None) = Returns None /\
  fst (research_person (py "Keir Starmer") uninitialised_world) = Returns None.
Proof.
  destruct (constructed_flow_is_null_safe
              (fun _ => None) (fun _ => None) (fun _ => None)
              (py "6f1c2d9e-0000-4000-8000-000000000001")
              (py "gemini-1.5-flash-latest")
              sample_researcher sample_reviewer sample_refiner sample_answer
              (Some (py "test_app_name")) (Some (py "test_user_id"))
              (mk_Env [] []) (sample_flow None None) (mk_Env [] [])
              (py "Keir Starmer") eq_refl eq_refl)
    as (_ & _ & Hst & _ & Hrp).
  split; [exact Hst|].
  change uninitialised_world
    with (mk_World (sample_flow None None) (mk_Env [] []) [] []).
  rewrite Hrp. reflexivity.
Defined.

Lemma initialize_async_cases
    (create_session : option pystr -> option pystr -> pystr -> pyresult Session)
    (new_Runner : BaseAgent -> option pystr -> pyresult Runner) (w : World) :
  let f := self w in
  let failed (e : exn) (w1 : World) : pyresult unit * World :=
    (Raises e,
     if derives_Exception e
     then logged ERROR
            (py "Failed to initialize session and runner: " ++ exn_str e) w1
     else w1) in
  initialize_async create_session new_Runner w
  = match create_session (app_name f) (user_id f) (session_id f) with
    | Raises e => failed e w
    | Returns s =>
        let w1 := mk_World (with_session f (Some s)) (env w)
                           (run_async_calls w) (observed w) in
        match new_Runner (workflow_agent f) (app_name f) with
        | Raises e => failed e w1
        | Returns r =>
            (Returns tt,
             logged INFO (py "Session and runner initialized successfully")
               (mk_World (with_runner (with_session f (Some s)) (Some r))
                         (env w) (run_async_calls w) (observed w)))
        end
    end.
Proof.
  cbv zeta.
  unfold initialize_async, _setup_session_and_runner, try_except_Exception.
  unfold bind at 1. unfold get_self at 1.
  unfold bind at 1. unfold call at 1.
  destruct (create_session (app_name (self w)) (user_id (self w))
                           (session_id (self w))) as [s|e].
  - unfold bind at 1. unfold set_self at 1.
    unfold bind at 1. unfold call at 1.
    destruct (new_Runner (workflow_agent (self w)) (app_name (self w)))
      as [r|e].
    + reflexivity.
    + destruct (derives_Exception e); reflexivity.
  - destruct (derives_Exception e); reflexivity.
Qed.

(** X10.  Construct, initialise, research: when construction and
    initialisation succeed, the session of the flow is the one the session
    service created under the application name, the user id and the session
    id of the construction, and the one call of [run_async] that
    [research_person] makes, for a name that is not blank and that the
    standard output can encode, carries that user id and that session id. *)
Theorem constructed_flow_runs_under_its_session_id
    tavily_init langchain_init agent_init create_session new_Runner
    uuid model ri rvi rfi ai app user env0 f env1 w (person_name : pystr) :
  __init__ tavily_init langchain_init agent_init uuid model ri rvi rfi ai
           app user env0
  = (Returns f, env1) ->
  initialize_async create_session new_Runner (mk_World f env1 [] [])
  = (Returns tt, w) ->
  blank person_name = false ->
  encodable person_name = true ->
  (exists s, create_session app user uuid = Returns s /\
             session (self w) = Some s) /\
  run_async_calls (snd (research_person person_name w))
  = [(user, uuid, user_message person_name)].
Proof.
  intros Hinit Hstart Hb _.
  destruct (init_fields _ _ _ _ _ _ _ _ _ _ _ _ _ _ Hinit)
    as (_ & _ & Hsid & Huid & Happ & _ & _).
  rewrite initialize_async_cases in Hstart.
  cbn [self env run_async_calls observed] in Hstart.
  rewrite Hsid, Huid, Happ in Hstart.
  destruct (create_session app user uuid) as [s|e].
  - destruct (new_Runner (workflow_agent f) app) as [r|e].
    + injection Hstart as <-.
      split; [exists s; split; reflexivity|].
      match goal with
      | |- context [research_person _ ?w0] =>
          rewrite (research_person_call_recorded person_name w0 s r Hb
                     eq_refl eq_refl)
      end.
      cbn [self run_async_calls logged with_runner with_session user_id
           session_id List.app].
      rewrite Hsid, Huid. reflexivity.
    + discriminate Hstart.
  - discriminate Hstart.
Qed.

Lemma constructed_flow_runs_under_its_session_id_witness :
  run_async_calls
    (snd (research_person (py "Keir Starmer")
            (snd (initialize_async sample_create_session
                    (sample_new_Runner (yields (scenario_steps id) scenario_tail))
                    (mk_World (sample_flow None None) (mk_Env [] []) [] [])))))
  = [(Some (py "test_user_id"), py "6f1c2d9e-0000-4000-8000-000000000001",
      user_message (py "Keir Starmer"))].
Proof.
  exact (proj2 (constructed_flow_runs_under_its_session_id
                  (fun _ => None) (fun _ => None) (fun _ => None)
                  sample_create_session
                  (sample_new_Runner (yields (scenario_steps id) scenario_tail))
                  (py "6f1c2d9e-0000-4000-8000-000000000001")
                  (py "gemini-1.5-flash-latest")
                  sample_researcher sample_reviewer sample_refiner sample_answer
                  (Some (py "test_app_name")) (Some (py "test_user_id"))
                  (mk_Env [] []) (sample_flow None None) (mk_Env [] [])
                  _ (py "Keir Starmer") eq_refl eq_refl eq_refl eq_refl)).
Defined.

(** ** [main.py] *)



(** X12.  Without a [TAVILY_API_KEY] in the environment, or with an empty
    one, the example prints its six lines of guidance and returns: nothing
    is logged, and no flow is built (the constructors are not consulted). *)
Theorem example_without_api_key
    (environ : gmap string pystr)
    (researcher_prompt reviewer_prompt refiner_prompt answer_prompt uuid : pystr)
    (tavily_init langchain_init : TavilySearchResults -> option exn)
    (agent_init : BaseAgent -> option exn)
    (create_session : option pystr -> option pystr -> pystr -> pyresult Session)
    (new_Runner : BaseAgent -> option pystr -> pyresult Runner)
    (is_ValueError : exn -> bool) (e0 : Env) :
  truthy_opt (environ !! "TAVILY_API_KEY") = false ->
  simple_research_example_async environ researcher_prompt reviewer_prompt
    refiner_prompt answer_prompt uuid tavily_init langchain_init agent_init
    create_session new_Runner is_ValueError e0
  = (Returns tt,
     mk_Env (log e0)
       (stdout e0
        ++ [[10060] ++ py " Error: TAVILY_API_KEY environment variable not set";
            [10; 128161] ++ py " To run this example:";
            py "1. Get a Tavily API key from https://tavily.com";
            py "2. Set the environment variable:";
            py "   export TAVILY_API_KEY='your-api-key-here'";
            py "3. Or create a .env file with: TAVILY_API_KEY=your-api-key-here"])).
Proof.
  intros H. unfold simple_research_example_async. rewrite H.
  unfold bind, print. cbn [negb log stdout].
  rewrite <- !app_assoc. reflexivity.
Qed.

Lemma example_without_api_key_witness :
  fst (simple_research_example_async
         (<["TAVILY_API_KEY" := ([] : pystr)]> ∅)
         [] [] [] [] (py "6f1c2d9e-0000-4000-8000-000000000001")
         (fun _ => None) (fun _ => None) (fun _ => None) sample_create_session
         (sample_new_Runner (StopAsyncIteration id)) (fun _ => false)
         (mk_Env [] []))
  = Returns tt.
Proof.
  assert (H : truthy_opt ((<["TAVILY_API_KEY" := ([] : pystr)]> ∅
                           : gmap string pystr) !! "TAVILY_API_KEY") = false).
  { reflexivity. }
  rewrite (example_without_api_key (<["TAVILY_API_KEY" := ([] : pystr)]> ∅)
             [] [] [] [] (py "6f1c2d9e-0000-4000-8000-000000000001")
             (fun _ => None) (fun _ => None) (fun _ => None)
             sample_create_session
             (sample_new_Runner (StopAsyncIteration id)) (fun _ => false)
             (mk_Env [] []) H).
  reflexivity.
Defined.

Lemma init_fails tavily_init langchain_init agent_init uuid model
    ri rvi rfi ai app user (e0 : Env) (e : exn) :
  tool_setup_failure tavily_init langchain_init = Some e ->
  __init__ tavily_init langchain_init agent_init uuid model ri rvi rfi ai
           app user e0
  = (Raises e,
     if derives_Exception e
     then mk_Env (log e0 ++
                    [(ERROR, py "Failed to initialize Tavily search tool: "
                             ++ exn_str e)])
                 (stdout e0)
     else e0).
Proof.
  intros H. unfold __init__. unfold bind at 1.
  rewrite setup_tools_cases, H. reflexivity.
Qed.

(** X13.  With an API key in the environment, when tool setup raises [e],
    with a message that the standard output can encode, the
    example prints its first line, builds no flow and creates no session.  A
    [ValueError] is reported as a configuration error when its message
    contains "TAVILY_API_KEY" and as a plain error otherwise; any other
    exception whose class derives from [Exception] is reported as an
    unexpected error; in these cases the example returns.  An exception of
    no such class goes on to the caller.  [_setup_tools] has logged the
    exception when its class derives from [Exception]. *)
Theorem example_reports_tool_failure
    (environ : gmap string pystr)
    (researcher_prompt reviewer_prompt refiner_prompt answer_prompt uuid : pystr)
    (tavily_init langchain_init : TavilySearchResults -> option exn)
    (agent_init : BaseAgent -> option exn)
    (create_session : option pystr -> option pystr -> pystr -> pyresult Session)
    (new_Runner : BaseAgent -> option pystr -> pyresult Runner)
    (is_ValueError : exn -> bool) (e0 : Env) (e : exn) :
  truthy_opt (environ !! "TAVILY_API_KEY") = true ->
  tool_setup_failure tavily_init langchain_init = Some e ->
  encodable (exn_str e) = true ->
  let logged_by_setup :=
    if derives_Exception e
    then [(ERROR, py "Failed to initialize Tavily search tool: " ++ exn_str e)]
    else [] in
  let first_line :=
    [128640] ++ py " Initializing Professional Research Agent with Web Search..." in
  simple_research_example_async environ researcher_prompt reviewer_prompt
    refiner_prompt answer_prompt uuid tavily_init langchain_init agent_init
    create_session new_Runner is_ValueError e0
  = if is_ValueError e then
      (Returns tt,
       mk_Env (log e0 ++ logged_by_setup)
         (stdout e0 ++ [first_line]
          ++ if contains (py "TAVILY_API_KEY") (exn_str e)
             then [[10060] ++ py " Configuration Error: " ++ exn_str e;
                   [10; 128161]
                   ++ py " Make sure your TAVILY_API_KEY is valid and properly set."]
             else [[10060] ++ py " Error: " ++ exn_str e]))
    else if derives_Exception e then
      (Returns tt,
       mk_Env (log e0 ++ logged_by_setup)
         (stdout e0 ++ [first_line]
          ++ [[10060] ++ py " Unexpected error: " ++ exn_str e;
              py "Please check your internet connection and API key."]))
    else
      (Raises e, mk_Env (log e0 ++ logged_by_setup) (stdout e0 ++ [first_line])).
Proof.
  intros Hkey Hfail _. cbv zeta.
  unfold simple_research_example_async. rewrite Hkey. cbn [negb].
  unfold try_except_ValueError_Exception.
  unfold bind at 1. unfold print at 1.
  unfold bind at 1. rewrite (init_fails _ _ _ _ _ _ _ _ _ _ _ _ e Hfail).
  destruct (is_ValueError e).
  - destruct (contains (py "TAVILY_API_KEY") (exn_str e));
      destruct (derives_Exception e); unfold bind, print;
      cbn [log stdout]; rewrite <- ?app_assoc, ?app_nil_r; reflexivity.
  - destruct (derives_Exception e); unfold bind, print;
      cbn [log stdout]; rewrite <- ?app_assoc, ?app_nil_r; reflexivity.
Qed.

(** A missing key reported by the search tool as a [ValueError] is printed
    as a configuration error. *)
Lemma example_reports_tool_failure_witness :
  let e := mk_exn "ValueError" true (py "Did not find TAVILY_API_KEY") in
  simple_research_example_async {[ "TAVILY_API_KEY" := py "tvly-invalid" ]}
    [] [] [] [] (py "6f1c2d9e-0000-4000-8000-000000000001")
    (fun _ => Some e) (fun _ => None) (fun _ => None) sample_create_session
    (sample_new_Runner (StopAsyncIteration id))
    (fun x => String.eqb (exn_type x) "ValueError") (mk_Env [] [])
  = (Returns tt,
     mk_Env
       [(ERROR, py "Failed to initialize Tavily search tool: Did not find TAVILY_API_KEY")]
       [[128640] ++ py " Initializing Professional Research Agent with Web Search...";
        [10060] ++ py " Configuration Error: Did not find TAVILY_API_KEY";
        [10; 128161]
        ++ py " Make sure your TAVILY_API_KEY is valid and properly set."]).
Proof.
  intros e.
  exact (example_reports_tool_failure {[ "TAVILY_API_KEY" := py "tvly-invalid" ]}
           [] [] [] [] (py "6f1c2d9e-0000-4000-8000-000000000001")
           (fun _ => Some e) (fun _ => None) (fun _ => None)
           sample_create_session
           (sample_new_Runner (StopAsyncIteration id))
           (fun x => String.eqb (exn_type x) "ValueError") (mk_Env [] [])
           e eq_refl eq_refl eq_refl).
Defined.

(** ** What the accessors see after a run *)

Lemma commits_keep (key : string) (steps : list step) :
  Forall (fun ce : step => forall st, fst ce st !! key = st !! key) steps ->
  forall st, commits steps st !! key = st !! key.
Proof.
  induction 1 as [|[c e] steps Hc _ IH]; intros st; [reflexivity|].
  simpl in *. rewrite IH. apply Hc.
Qed.

(** X15.  The accessors see the state as it is when the loop is left.  When
    the session holds no [review_result] before the call and none of the state
    changes up to the event that stops the loop writes one, then after the
    call [get_review_status] and [get_review_feedback] return [None],
    whatever the rest of the generator would have written: a review that an
    agent writes after the first final response with content is not
    seen. *)
Theorem review_after_stop_is_not_seen (person_name : pystr) (w : World)
    (s : Session) (r : Runner) (steps : list step)
    (c : gmap string pystr -> gmap string pystr) (event : Event)
    (rest : AsyncGenerator) :
  blank person_name = false ->
  session (self w) = Some s ->
  runner (self w) = Some r ->
  run_async r (user_id (self w)) (session_id (self w)) (user_message person_name)
  = yields steps (Yield c event rest) ->
  Forall (fun ce => stops (snd ce) = false) steps ->
  stops event = true ->
  state s !! "review_result" = None ->
  Forall (fun ce : step => forall st, fst ce st !! "review_result"
                                      = st !! "review_result") steps ->
  (forall st, c st !! "review_result" = st !! "review_result") ->
  let f' := self (snd (research_person person_name w)) in
  get_review_status f' = Returns None /\
  get_review_feedback f' = Returns None.
Proof.
  intros Hb Hs Hr Hg Hsteps Hstop Hnone Hkeep Hc f'.
  assert (E : review_result_of f' = None).
  { subst f'.
    rewrite (research_person_run person_name w s r steps (Yield c event rest)
               Hb Hs Hr Hg Hsteps Hstop).
    assert (L : c (commits steps
                     (<["person_name" := strip person_name]> (state s)))
                !! "review_result" = None).
    { rewrite Hc, (commits_keep _ _ Hkeep).
      rewrite lookup_insert_ne by discriminate. exact Hnone. }
    unfold review_result_of.
    destruct (resolve _ _); cbn -[py strip]; exact L. }
  unfold get_review_status, get_review_feedback.
  fold (review_result_of f'). rewrite E. split; reflexivity.
Qed.

(** The research agent ends with a final response; the review that the
    reviewer would write later is not seen. *)
Lemma review_after_stop_is_not_seen_witness :
  let rest := Yield (<["review_result" := py "APPROVED: solid summary"]>)
                    (text_event true (py "APPROVED: solid summary"))
                    (StopAsyncIteration id) in
  let g := Yield (<["research_data" := py "Born in 1962."]>)
                 (text_event true (py "Born in 1962.")) rest in
  get_review_status
    (self (snd (research_person (py "Keir Starmer") (sample_world ∅ g))))
  = Returns None.
Proof.
  intros rest g.
  refine (proj1 (review_after_stop_is_not_seen (py "Keir Starmer")
                   (sample_world ∅ g) (sample_session ∅) (sample_runner g) []
                   (<["research_data" := py "Born in 1962."]>)
                   (text_event true (py "Born in 1962.")) rest
                   eq_refl eq_refl eq_refl eq_refl _ eq_refl eq_refl _ _)).
  - constructor.
  - constructor.
  - intros st. apply lookup_insert_ne. discriminate.
Defined.

(** ** [get_current_time] *)

Lemma lower_from_ascii lower_nonascii (s before : pystr) :
  Forall (fun c => c < 128) s ->
  lower_from lower_nonascii before s = List.map ascii_lower s.
Proof.
  intros H. revert before. induction H as [|c s Hc _ IH]; intros before.
  - reflexivity.
  - cbn [lower_from List.map]. apply N.ltb_lt in Hc. rewrite Hc.
    rewrite IH. reflexivity.
Qed.

(** X16.  On a city written in ASCII, [get_current_time] ignores the case of
    the letters: it takes the branch of New York exactly when the city is
    "new york" up to the case of its ASCII letters, and then returns the
    report with the city as it was typed, or raises what [ZoneInfo] raises;
    on any other city it returns the error dictionary, which names the city,
    without asking for a time zone. *)
Theorem get_current_time_ascii
    (lower_nonascii : pystr -> N -> pystr -> pystr)
    (zoneinfo_init : pystr -> option exn) (now_strftime : pystr -> pystr)
    (city : pystr) :
  Forall (fun c => c < 128) city ->
  (List.map ascii_lower city = py "new york" ->
   get_current_time lower_nonascii zoneinfo_init now_strftime city
   = match zoneinfo_init (py "America/New_York") with
     | Some e => Raises e
     | None =>
         Returns {[ "status" := py "success";
                    "report" :=
                      py "The current time in " ++ city ++ py " is "
                      ++ now_strftime (py "America/New_York") ]}
     end) /\
  (List.map ascii_lower city <> py "new york" ->
   get_current_time lower_nonascii zoneinfo_init now_strftime city
   = Returns {[ "status" := py "error";
                "error_message" :=
                  py "Sorry, I don't have timezone information for "
                  ++ city ++ py "." ]}).
Proof.
  intros Hascii. unfold get_current_time, lower, str_eq.
  rewrite (lower_from_ascii _ _ _ Hascii).
  split; intros H.
  - rewrite bool_decide_eq_true_2 by exact H. reflexivity.
  - rewrite bool_decide_eq_false_2 by exact H. reflexivity.
Qed.

Lemma get_current_time_ascii_witness :
  get_current_time sample_lower_nonascii (fun _ => None)
    (fun _ => py "2025-06-01 09:30:00 EDT-0400") (py "New York")
  = Returns {[ "status" := py "success";
               "report" :=
                 py "The current time in New York is 2025-06-01 09:30:00 EDT-0400" ]}.
Proof.
  refine (proj1 (get_current_time_ascii sample_lower_nonascii (fun _ => None)
                   (fun _ => py "2025-06-01 09:30:00 EDT-0400") (py "New York")
                   _) eq_refl).
  repeat constructor.
Defined.
